(** * buff_watcher: the monitoring core of [main.py]

    A shallow embedding of the price watcher: the listing parser
    ([parse_listings], [_strip_recursive]), the start-up sequence
    ([load_config] and the construction of [items_data]), the body of the
    polling loop of [main] with its alarm set, and the alarm footer of
    [generate_layout].

    Conventions.
    - A Python [float] is an IEEE binary64 value, modelled by [spec_float]
      at precision 53 and maximal exponent 1024.
    - A Python [str] is a [string]; its characters are the code points
      0..255 that fit [ascii].
    - The third-party parsers ([BeautifulSoup(html, 'html.parser')],
      [json.loads], [toml.load]) and the text grammar of [float(str)] are
      parameters of the development ([Libraries]), each with the exception
      it raises on a text it rejects: the general theorems hold for all of
      them, the examples use their values on the pages and files of
      [Sample].
    - The limits of the interpreter (recursion depth, memory) are outside
      the model: [_strip_recursive] is a total function here, while Python
      raises [RecursionError] on a payload nested deeper than its stack
      allows.
    - Exceptions are values of [exn]; code that may raise returns a
      [result]. *)

From Stdlib Require Import ZArith Ascii String.
From Stdlib.Floats Require Import SpecFloat.
From stdpp Require Import base option list sorting gmap strings.

Local Open Scope string_scope.
Local Open Scope list_scope.

(** ** Exceptions and fallible computations *)

Inductive exn : Type :=
| JSONDecodeError
| TomlDecodeError
| ValueError
| TypeError
| KeyError
| OverflowError
| FileNotFoundError
| PermissionError
| ParserRejectedMarkup
| SystemExit (status : Z).

Inductive result (A : Type) : Type :=
| Ok (a : A)
| Raise (e : exn).

Arguments Ok {A} a.
Arguments Raise {A} e.

#[global] Instance result_ret : MRet result := fun A a => Ok a.

#[global] Instance result_bind : MBind result := fun A B f m =>
  match m with
  | Ok a => f a
  | Raise e => Raise e
  end.

Fixpoint result_mapM {A B} (f : A -> result B) (l : list A) : result (list B) :=
  match l with
  | [] => Ok []
  | a :: l' => b ← f a; bs ← result_mapM f l'; mret (b :: bs)
  end.

(** How the interpreter ends when [r] is the outcome of the script:
    [exit(n)] gives status [n], any other exception that nothing caught
    gives status 1 after its traceback is written; [None] when the script
    is still running. *)
Definition exit_status {A} (r : result A) : option Z :=
  match r with
  | Ok _ => None
  | Raise (SystemExit n) => Some n
  | Raise _ => Some 1%Z
  end.


(** ** Python floats *)

Module PyFloat.

Definition float : Type := spec_float.

Definition prec : Z := 53.
Definition emax : Z := 1024.

(** [x < y] and [x <= y] on floats; both are [False] when a NaN is involved. *)
Definition lt (x y : float) : bool := SFltb x y.
Definition le (x y : float) : bool := SFleb x y.

(** The nearest float to an integer (ties to even); integers beyond the
    range round to an infinity here, which [float(int)] reports as
    [OverflowError] (see [py_float]). *)
Definition of_Z (z : Z) : float := binary_normalize prec emax z 0 false.

(** [x <= n] for an [int] [n]: Python compares the two exactly. *)
Definition le_int (x : float) (n : Z) : bool :=
  match x with
  | S754_nan => false
  | S754_infinity s => s
  | S754_zero _ => (0 <=? n)%Z
  | S754_finite s m e =>
      let v := if s then Z.neg m else Z.pos m in
      if (0 <=? e)%Z then (v * 2 ^ e <=? n)%Z else (v <=? n * 2 ^ (- e))%Z
  end.

(** Truth value of a float: only the two zeros are false. *)
Definition truthy (x : float) : bool :=
  match x with
  | S754_zero _ => false
  | _ => true
  end.

Definition is_zero (x : float) : bool := negb (truthy x).

Definition is_finite (x : float) : bool :=
  match x with
  | S754_zero _ | S754_finite _ _ _ => true
  | _ => false
  end.

Definition is_negative (x : float) : bool := lt x (S754_zero false).

(** The invariant the data model asks of an Offer. *)
Definition finite_nonneg (x : float) : bool :=
  is_finite x && negb (is_negative x).

End PyFloat.

Abbreviation float := PyFloat.float.

(** ** Python strings *)

Module PyStr.

(** [str.isspace] on one character, for the code points below 256. *)
Definition isspace (c : ascii) : bool :=
  let n := nat_of_ascii c in
  (((9 <=? n) && (n <=? 13)) || ((28 <=? n) && (n <=? 32))
   || (n =? 133) || (n =? 160))%nat.

Fixpoint lstrip (s : string) : string :=
  match s with
  | String c s' => if isspace c then lstrip s' else s
  | EmptyString => EmptyString
  end.

Fixpoint rstrip (s : string) : string :=
  match s with
  | String c s' =>
      match rstrip s' with
      | EmptyString => if isspace c then EmptyString else String c EmptyString
      | r => String c r
      end
  | EmptyString => EmptyString
  end.

(** [s.strip()] *)
Definition strip (s : string) : string := rstrip (lstrip s).

Fixpoint startswith (s p : string) : bool :=
  match p, s with
  | EmptyString, _ => true
  | String a p', String b s' => if Ascii.eqb a b then startswith s' p' else false
  | String _ _, EmptyString => false
  end.

(** [sub in s] for two strings. *)
Fixpoint contains (s sub : string) : bool :=
  startswith s sub ||
  match s with
  | String _ s' => contains s' sub
  | EmptyString => false
  end.

(** Left-to-right scan of [s.replace(old, new)] for a non-empty [old];
    [skip] counts the characters of a matched occurrence still to drop. *)
Fixpoint replace_from (old new s : string) (skip : nat) : string :=
  match s with
  | EmptyString => EmptyString
  | String c s' =>
      match skip with
      | S k => replace_from old new s' k
      | O =>
          if startswith s old
          then new +:+ replace_from old new s' (String.length old - 1)
          else String c (replace_from old new s' 0)
      end
  end.

Fixpoint intersperse (new s : string) : string :=
  match s with
  | EmptyString => new
  | String c s' => new +:+ String c (intersperse new s')
  end.

(** [s.replace(old, new)] *)
Definition replace (s old new : string) : string :=
  match old with
  | EmptyString => intersperse new s
  | _ => replace_from old new s 0
  end.

Definition first_char (s : string) : option ascii :=
  match s with String c _ => Some c | EmptyString => None end.

Fixpoint last_char (s : string) : option ascii :=
  match s with
  | EmptyString => None
  | String c EmptyString => Some c
  | String _ s' => last_char s'
  end.

(** No white space at either end. *)
Definition trimmed (s : string) : bool :=
  match first_char s, last_char s with
  | Some a, Some b => negb (isspace a) && negb (isspace b)
  | _, _ => true
  end.

Fixpoint all_space (s : string) : bool :=
  match s with
  | EmptyString => true
  | String c s' => isspace c && all_space s'
  end.

Fixpoint has_char (c : ascii) (s : string) : bool :=
  match s with
  | EmptyString => false
  | String a s' => Ascii.eqb a c || has_char c s'
  end.

(** The part of a string behind its first [n] characters. *)
Fixpoint drop (n : nat) (s : string) : string :=
  match n, s with
  | S n', String _ s' => drop n' s'
  | _, _ => s
  end.

End PyStr.

(** ** Python values

    The values [json.loads] and [toml.load] can return.  A [dict] keeps its
    insertion order and has string keys. *)

#[warnings="-register-all"]
Inductive pyobj : Type :=
| PNone
| PBool (b : bool)
| PInt (n : Z)
| PFloat (x : float)
| PStr (s : string)
| PList (l : list pyobj)
| PDict (d : list (string * pyobj))
| PDatetime (t : Z).

Module PyDict.

Fixpoint get {A} (d : list (string * A)) (k : string) : option A :=
  match d with
  | [] => None
  | (k', v) :: d' => if String.eqb k' k then Some v else get d' k
  end.

(** [d[k] = v]: an existing key keeps its place, a new one goes last. *)
Fixpoint set {A} (d : list (string * A)) (k : string) (v : A) : list (string * A) :=
  match d with
  | [] => [(k, v)]
  | (k', v') :: d' => if String.eqb k' k then (k', v) :: d' else (k', v') :: set d' k v
  end.

(** The dict built by a comprehension from its [(key, value)] pairs, in order. *)
Definition of_items {A} (kvs : list (string * A)) : list (string * A) :=
  fold_left (fun d kv => set d kv.1 kv.2) kvs [].

Definition has {A} (d : list (string * A)) (k : string) : bool :=
  match get d k with Some _ => true | None => false end.

End PyDict.

(** [_strip_recursive(obj)].  In the dict branch the source strips a string
    value and then recurses on it, which returns it as it is; the match on
    [v] writes that out (see [strip_recursive_dict_eq]). *)
Fixpoint _strip_recursive (obj : pyobj) : pyobj :=
  match obj with
  | PDict d =>
      PDict (PyDict.of_items
               (map (fun kv =>
                       match kv with
                       | (k, v) =>
                           (PyStr.strip k,
                            match v with
                            | PStr s => PStr (PyStr.strip s)
                            | _ => _strip_recursive v
                            end)
                       end) d))
  | PList l => PList (map _strip_recursive l)
  | _ => obj
  end.

(** [v.strip() if isinstance(v, str) else v] *)
Definition strip_if_str (v : pyobj) : pyobj :=
  match v with
  | PStr s => PStr (PyStr.strip s)
  | _ => v
  end.

(** [key in container] for a string [key]. *)
Definition py_contains (container : pyobj) (key : string) : result bool :=
  match container with
  | PDict d => Ok (PyDict.has d key)
  | PList l =>
      Ok (existsb (fun o => match o with PStr s => String.eqb s key | _ => false end) l)
  | PStr s => Ok (PyStr.contains s key)
  | _ => Raise TypeError
  end.

(** [container[key]] for a string [key]. *)
Definition py_getitem (container : pyobj) (key : string) : result pyobj :=
  match container with
  | PDict d =>
      match PyDict.get d key with
      | Some v => Ok v
      | None => Raise KeyError
      end
  | _ => Raise TypeError
  end.

(** [for x in container]: the sequence of values the loop variable takes. *)
Definition py_iter (container : pyobj) : result (list pyobj) :=
  match container with
  | PList l => Ok l
  | PDict d => Ok (map (fun kv => PStr kv.1) d)
  | PStr s => Ok (map (fun c => PStr (String c EmptyString)) (list_ascii_of_string s))
  | _ => Raise TypeError
  end.

(** ** The parsed page

    What [BeautifulSoup(html, 'html.parser')] builds: tags with their name,
    the list held by the [class] attribute, the other (string-valued)
    attributes, and their contents. *)

#[warnings="-register-all"]
Inductive node : Type :=
| Tag (name : string) (classes : list string) (attrs : list (string * string))
      (contents : list node)
| NavigableString (text : string).

Module Soup.

(** All nodes below a node, in document order. *)
Fixpoint descendants (n : node) : list node :=
  match n with
  | Tag _ _ _ cs => flat_map (fun c => c :: descendants c) cs
  | NavigableString _ => []
  end.

Definition descendants_of (cs : list node) : list node :=
  flat_map (fun c => c :: descendants c) cs.

(** A tag called [name] that carries the class [cls]. *)
Definition matches (name cls : string) (n : node) : bool :=
  match n with
  | Tag nm classes _ _ => String.eqb nm name && existsb (String.eqb cls) classes
  | NavigableString _ => false
  end.

(** [soup.find(name, class_=cls)] on the document. *)
Definition find (soup : list node) (name cls : string) : option node :=
  head (filter (fun n => matches name cls n = true) (descendants_of soup)).

(** [tag.find_all(name, class_=cls)] *)
Definition find_all (tag : node) (name cls : string) : list node :=
  filter (fun n => matches name cls n = true) (descendants tag).

(** [tag.get(key)] *)
Definition get (tag : node) (key : string) : option string :=
  match tag with
  | Tag _ _ attrs _ => PyDict.get attrs key
  | NavigableString _ => None
  end.

End Soup.

(** ** Prices and thresholds *)

(** A threshold read from the configuration: TOML has integers and floats. *)
Inductive number : Type :=
| NInt (n : Z)
| NFloat (x : float).

(** [x <= t] *)
Definition le_number (x : float) (t : number) : bool :=
  match t with
  | NInt n => PyFloat.le_int x n
  | NFloat y => PyFloat.le x y
  end.

(** [min(prices)] of a non-empty list: the first of the smallest values. *)
Definition py_min (prices : list float) : option float :=
  match prices with
  | [] => None
  | x :: rest => Some (fold_left (fun m y => if PyFloat.lt y m then y else m) rest x)
  end.

(** The double-quote character. *)
Definition dquote : string := String (ascii_of_nat 34) EmptyString.

(** ** The libraries the script calls

    [json_loads] is [json.loads], with [None] for [json.JSONDecodeError];
    [float_of_str] is [float] on a string, with [None] for [ValueError];
    [html_parser] gives the contents of [BeautifulSoup(html, 'html.parser')],
    with [None] for [bs4.exceptions.ParserRejectedMarkup], which the
    constructor raises on markup the parser of the standard library gives
    up on;
    [toml_load] is [toml.load] on the text of the file, with [None] for
    [toml.TomlDecodeError]. *)

Class Libraries : Type := {
  json_loads : string -> option pyobj;
  float_of_str : string -> option float;
  html_parser : string -> option (list node);
  toml_load : string -> option (list (string * pyobj))
}.

(** ** The listing parser *)

(** [float(v)] *)
Definition py_float {L : Libraries} (v : pyobj) : result float :=
  match v with
  | PFloat x => Ok x
  | PInt n =>
      let x := PyFloat.of_Z n in
      if PyFloat.is_finite x then Ok x else Raise OverflowError
  | PBool b => Ok (PyFloat.of_Z (if b then 1 else 0))
  | PStr s =>
      match float_of_str s with
      | Some x => Ok x
      | None => Raise ValueError
      end
  | _ => Raise TypeError
  end.

(** The clean-up before decoding: [.replace('&quot;', q)] with [q] the
    double quote, then [.replace(';', '')]. *)
Definition clean (goods_info_str : string) : string :=
  PyStr.replace (PyStr.replace goods_info_str "&quot;" dquote) ";" "".

(** The body of the [try] for one row: the price to append, if any. *)
Definition row_price {L : Libraries} (goods_info_str : string) : result (option float) :=
  let cleaned_str := clean goods_info_str in
  data ← match json_loads cleaned_str with
         | Some data => Ok data
         | None => Raise JSONDecodeError
         end;
  let stripped_data := _strip_recursive data in
  present ← py_contains stripped_data "sell_min_price";
  if present : bool
  then v ← py_getitem stripped_data "sell_min_price";
       x ← py_float v;
       mret (Some x)
  else mret None.

(** [except (json.JSONDecodeError, ValueError, TypeError)]; the two decode
    errors are subclasses of [ValueError]. *)
Definition handled (e : exn) : bool :=
  match e with
  | JSONDecodeError | TomlDecodeError | ValueError | TypeError => true
  | _ => false
  end.

(** [for row in selling_rows: ...], with [prices] as accumulated so far. *)
Fixpoint rows_loop {L : Libraries} (selling_rows : list node) (prices : list float)
  : result (list float) :=
  match selling_rows with
  | [] => Ok prices
  | row :: rest =>
      match Soup.get row "data-goods-info" with
      | None | Some EmptyString => rows_loop rest prices
      | Some goods_info_str =>
          match row_price goods_info_str with
          | Ok (Some x) => rows_loop rest (prices ++ [x])
          | Ok None => rows_loop rest prices
          | Raise e => if handled e then rows_loop rest prices else Raise e
          end
      end
  end.

(** The part of [parse_listings] that works on the parsed page. *)
Definition parse_soup {L : Libraries} (soup : list node) : result (list float) :=
  match Soup.find soup "table" "list_tb" with
  | None => Ok []
  | Some listings_table =>
      rows_loop (Soup.find_all listings_table "tr" "selling") []
  end.

(** [parse_listings(html)]; [html] is [None] after a failed fetch. *)
Definition parse_listings {L : Libraries} (html : option string) : result (list float) :=
  match html with
  | None | Some EmptyString => Ok []
  | Some text =>
      match html_parser text with
      | Some soup => parse_soup soup
      | None => Raise ParserRejectedMarkup
      end
  end.

(** ** The monitor *)

(** A reading of [datetime.now()]. *)
Definition time : Type := Z.

(** One entry of [items_data].  The loop is modelled for the items of the
    data model: a string name, a string URL and a numeric threshold. *)
Record item : Type := Item {
  display_name : string;
  url : string;
  alarm_price : number;
  lowest_price : option float;
  last_updated : option time
}.

(** The two variables the loop of [main] mutates. *)
Record monitor : Type := Monitor {
  items_data : list item;
  active_alarms : gset string
}.

(** What [generate_layout] hands to the display: the size of the footer,
    the rows of the table (a missing price or time is shown as N/A) and the
    lines of the alarm footer, each a name with its price. *)
Record layout : Type := Layout {
  footer_size : nat;
  table_rows : list (string * option float * option time);
  alarm_lines : list (string * float)
}.

(** The footer line of one alarm name, if it gets one:
    [next((item for item in items_data if ...), None)], then
    [if item_data and item_data['lowest_price']]. *)
Definition alarm_line (items : list item) (alarm_item_name : string)
  : list (string * float) :=
  match List.find (fun it => String.eqb (display_name it) alarm_item_name) items with
  | Some item_data =>
      match lowest_price item_data with
      | Some p => if PyFloat.truthy p then [(alarm_item_name, p)] else []
      | None => []
      end
  | None => []
  end.

(** [generate_layout(items_data, active_alarms)] *)
Definition generate_layout (items : list item) (alarms : gset string) : layout :=
  {| footer_size := size alarms + 4;
     table_rows := map (fun it => (display_name it, lowest_price it, last_updated it)) items;
     alarm_lines :=
       if decide (alarms = ∅) then []
       else flat_map (alarm_line items) (merge_sort String.le (elements alarms)) |}.

(** The body of [if prices:] for the item at index [i], with the reading
    [now] of the clock: the new state, and whether the alarm sound played. *)
Definition record_sample (prices : list float) (now : time) (i : nat) (st : monitor)
  : monitor * bool :=
  match items_data st !! i, py_min prices with
  | Some it, Some lowest =>
      let it' := {| display_name := display_name it; url := url it;
                    alarm_price := alarm_price it;
                    lowest_price := Some lowest; last_updated := Some now |} in
      let items' := <[i := it']> (items_data st) in
      let is_in_alarm := bool_decide (display_name it ∈ active_alarms st) in
      if le_number lowest (alarm_price it)
      then if negb is_in_alarm
           then (Monitor items' ({[display_name it]} ∪ active_alarms st), true)
           else (Monitor items' (active_alarms st), false)
      else if is_in_alarm
           then (Monitor items' (active_alarms st ∖ {[display_name it]}), false)
           else (Monitor items' (active_alarms st), false)
  | _, _ => (st, false)
  end.

(** What the loop does to the outside: [play_alarm_sound()],
    [live.update(layout, refresh=True)] and [time.sleep(seconds)]. *)
Inductive event : Type :=
| play_alarm_sound
| live_update (l : layout)
| time_sleep (seconds : nat).

(** One pass of the body of [for item in items_data], for the item at
    index [i]: [html] is what [fetch_html] returned for its URL. *)
Definition poll_item {L : Libraries} (html : option string) (now : time) (i : nat)
  (st : monitor) : result (monitor * list event) :=
  prices ← parse_listings html;
  let '(st', played) := record_sample prices now i st in
  mret (st', (if played : bool then [play_alarm_sound] else [])
             ++ [live_update (generate_layout (items_data st') (active_alarms st'))]).

(** The outside world: what [fetch_html] returns for a URL at the [n]-th
    fetch of the run ([None] for a time-out or any other failure), and the
    clock at that moment. *)
Record world : Type := World {
  fetch_html : nat -> string -> option string;
  clock : nat -> time
}.

(** [for item in items_data: ...] from index [i] on, [n] items to go;
    [tick] counts the fetches made so far. *)
Fixpoint for_items {L : Libraries} (w : world) (n i tick : nat) (st : monitor)
  : result (monitor * list event) :=
  match n with
  | O => Ok (st, [])
  | S n' =>
      match items_data st !! i with
      | None => Ok (st, [])
      | Some it =>
          '(st1, ev1) ← poll_item (fetch_html w tick (url it)) (clock w tick) i st;
          '(st2, ev2) ← for_items w n' (S i) (S tick) st1;
          mret (st2, ev1 ++ ev2)
      end
  end.

(** [cycles] rounds of the [while True] loop. *)
Fixpoint run {L : Libraries} (w : world) (cycles tick : nat) (st : monitor)
  : result (monitor * list event) :=
  match cycles with
  | O => Ok (st, [])
  | S c =>
      let n := length (items_data st) in
      '(st1, ev1) ← for_items w n 0 tick st;
      '(st2, ev2) ← run w c (tick + n) st1;
      mret (st2, ev1 ++ time_sleep 10 :: ev2)
  end.

(** The state [main] starts the loop in. *)
Definition new_item (name link : string) (threshold : number) : item :=
  {| display_name := name; url := link; alarm_price := threshold;
     lowest_price := None; last_updated := None |}.

Definition initial (config : list (string * string * number)) : monitor :=
  {| items_data := map (fun c => new_item c.1.1 c.1.2 c.2) config;
     active_alarms := ∅ |}.

(** The states the loop can be in between two items. *)
Inductive reachable {L : Libraries} (config : list (string * string * number))
  : monitor -> Prop :=
| reachable_initial : reachable config (initial config)
| reachable_poll st html now i st' evs :
    reachable config st ->
    i < length (items_data st) ->
    poll_item html now i st = Ok (st', evs) ->
    reachable config st'.

(** ** Start-up *)




(** One entry of [items_data] as [main] first builds it, with the values
    copied from the configuration as they are (the two fields that start
    as [None] are left out). *)
Record raw_item : Type := RawItem {
  raw_display_name : pyobj;
  raw_url : pyobj;
  raw_alarm_price : pyobj
}.

Definition raw_item_of (it : pyobj) : result raw_item :=
  n ← py_getitem it "display_name";
  u ← py_getitem it "url";
  a ← py_getitem it "alarm_price";
  mret (RawItem n u a).

(** The comprehension over [config.get("items", [])]. *)
Definition build_items_data (config : list (string * pyobj)) : result (list raw_item) :=
  its ← py_iter (default (PList []) (PyDict.get config "items"));
  result_mapM raw_item_of its.



(** ** Properties the theorems speak about *)

(** How often the alarm sound was played in a stretch of the run. *)
Definition is_play_alarm (e : event) : bool :=
  match e with play_alarm_sound => true | _ => false end.

Definition alarms_played (evs : list event) : nat :=
  length (List.filter is_play_alarm evs).

(** Every key of every dict, and every string that is the value of a key,
    is free of surrounding white space, at any depth. *)
Fixpoint dict_strings_trimmed (obj : pyobj) : bool :=
  match obj with
  | PDict d =>
      forallb (fun kv =>
                 match kv with
                 | (k, v) =>
                     PyStr.trimmed k &&
                     match v with
                     | PStr s => PyStr.trimmed s
                     | _ => dict_strings_trimmed v
                     end
                 end) d
  | PList l => forallb dict_strings_trimmed l
  | _ => true
  end.

(** Every key and every string at all is free of surrounding white space,
    the elements of lists included. *)
Fixpoint all_strings_trimmed (obj : pyobj) : bool :=
  match obj with
  | PStr s => PyStr.trimmed s
  | PDict d =>
      forallb (fun kv =>
                 match kv with
                 | (k, v) => PyStr.trimmed k && all_strings_trimmed v
                 end) d
  | PList l => forallb all_strings_trimmed l
  | _ => true
  end.

(** The price a row adds to the result, when it adds one. *)
Definition row_offer {L : Libraries} (row : node) : option float :=
  match Soup.get row "data-goods-info" with
  | None | Some EmptyString => None
  | Some goods_info_str =>
      match row_price goods_info_str with
      | Ok o => o
      | Raise _ => None
      end
  end.

(** The exception a row lets through, when it does. *)
Definition row_escape {L : Libraries} (row : node) : option exn :=
  match Soup.get row "data-goods-info" with
  | None | Some EmptyString => None
  | Some goods_info_str =>
      match row_price goods_info_str with
      | Ok _ => None
      | Raise e => if handled e then None else Some e
      end
  end.

(** The invariant of the alarm set: a tracked name is in it exactly when
    the price recorded for the item is there and within its threshold. *)
Definition alarm_invariant (st : monitor) : Prop :=
  ∀ it, it ∈ items_data st →
    (display_name it ∈ active_alarms st ↔
     ∃ p, lowest_price it = Some p ∧ le_number p (alarm_price it) = true).

(** The configured part of an item. *)
Definition tracked_part (it : item) : string * string * number :=
  (display_name it, url it, alarm_price it).




(** ** Sample pages and library behaviour

    The values of the libraries on the texts used in the examples below. *)

Module Sample.

Definition quoted (s : string) : string := dquote +:+ s +:+ dquote.

(** The text of a payload with the one field [sell_min_price]. *)
Definition payload (value : string) : string :=
  "{" +:+ quoted "sell_min_price" +:+ ": " +:+ value +:+ "}".

Fixpoint zeros (n : nat) : string :=
  match n with
  | O => EmptyString
  | S n' => String "0" (zeros n')
  end.

(** 10 to the 400, written out. *)
Definition huge : string := String "1" (zeros 400).

Definition price (value : pyobj) : pyobj := PDict [("sell_min_price", value)].

Definition decoded : list (string * pyobj) :=
  [ (payload (quoted "80.00"), price (PStr "80.00"));
    (payload (quoted "75.00"), price (PStr "75.00"));
    (payload (quoted " 75.00 "), price (PStr " 75.00 "));
    (payload "150", price (PInt 150));
    (payload "120", price (PInt 120));
    (payload "95", price (PInt 95));
    (payload "90", price (PInt 90));
    (payload "0", price (PInt 0));
    (payload "-5", price (PInt (-5)));
    (payload "Infinity", price (PFloat (S754_infinity false)));
    (payload "NaN", price (PFloat S754_nan));
    (payload huge, price (PInt (10 ^ 400)));
    (payload "null", price PNone);
    ("{" +:+ quoted "name" +:+ ": " +:+ quoted "AK-47" +:+ "}",
     PDict [("name", PStr "AK-47")]);
    ("[" +:+ quoted "sell_min_price" +:+ "]", PList [PStr "sell_min_price"]) ].

Definition row (goods_info : string) : node :=
  Tag "tr" ["selling"] [("data-goods-info", goods_info)] [].

(** A page with one selling row per payload, as the parser builds it. *)
Definition page (payloads : list string) : list node :=
  [Tag "html" [] []
     [Tag "body" [] []
        [Tag "h1" [] [] [NavigableString "Listings"];
         Tag "table" ["list_tb"] [] (map row payloads)]]].

(** The text of that page; inside an attribute a double quote is written
    as the entity, which the parser turns back into the character. *)
Definition row_text (goods_info : string) : string :=
  "<tr class='selling' data-goods-info='"
  +:+ PyStr.replace goods_info dquote "&quot;" +:+ "'></tr>".

Definition listing (payloads : list string) : string :=
  "<html><body><h1>Listings</h1><table class='list_tb'>"
  +:+ String.concat "" (map row_text payloads)
  +:+ "</table></body></html>".

Definition rows_150 : list string := [payload "150"].
Definition rows_120 : list string := [payload "120"].
Definition rows_95 : list string := [payload "95"].
Definition rows_90 : list string := [payload "90"].
Definition rows_0 : list string := [payload "0"].
Definition rows_corrupt : list string :=
  ["{corrupt"; payload (quoted "80.00"); payload (quoted "75.00")].
Definition rows_huge : list string :=
  [payload (quoted "80.00"); payload huge; payload (quoted "75.00")].
Definition rows_odd : list string :=
  [payload "-5"; payload "Infinity"; payload "NaN"].

Definition page_150 : string := listing rows_150.
Definition page_120 : string := listing rows_120.
Definition page_95 : string := listing rows_95.
Definition page_90 : string := listing rows_90.
Definition page_0 : string := listing rows_0.
Definition page_corrupt : string := listing rows_corrupt.
Definition page_huge : string := listing rows_huge.
Definition page_odd : string := listing rows_odd.

Definition page_maintenance : string := "<html><body><p>Back soon</p></body></html>".

(** A page without the listing table that the parser gives up on: the
    marked section it holds has an unknown keyword. *)
Definition page_rejected : string := "<html><body><p>Back soon</p><![a]></body></html>".

Definition maintenance : list node :=
  [Tag "html" [] [] [Tag "body" [] [] [Tag "p" [] [] [NavigableString "Back soon"]]]].

(** The parse of each page. *)
Definition pages : list (string * list node) :=
  map (fun payloads => (listing payloads, page payloads))
      [rows_150; rows_120; rows_95; rows_90; rows_0; rows_corrupt; rows_huge; rows_odd]
  ++ [(page_maintenance, maintenance)].

(** Configuration files and what they decode to. *)
Definition config_empty : string := "".

Definition config_items_table : string := "[items]".

Definition config_cheap : string :=
"[[items]]
display_name = 'AK-47'
url = 'u1'
alarm_price = 'cheap'".

Definition config_one_item : string :=
"[[items]]
display_name = 'AK-47'
url = 'u1'
alarm_price = 100".

Definition config_no_url : string :=
"[[items]]
display_name = 'AK-47'
alarm_price = 100".


Definition configs : list (string * list (string * pyobj)) :=
  [ (config_empty, []);
    (config_items_table, [("items", PDict [])]);
    (config_cheap,
     [("items", PList [PDict [("display_name", PStr "AK-47"); ("url", PStr "u1");
                              ("alarm_price", PStr "cheap")]])]);
    (config_one_item,
     [("items", PList [PDict [("display_name", PStr "AK-47"); ("url", PStr "u1");
                              ("alarm_price", PInt 100)]])]);
    (config_no_url,
     [("items", PList [PDict [("display_name", PStr "AK-47");
                              ("alarm_price", PInt 100)]])]) ].

#[export] Instance libraries : Libraries := {|
  json_loads s := PyDict.get decoded s;
  float_of_str s :=
    if String.eqb s "80.00" then Some (PyFloat.of_Z 80)
    else if String.eqb s "75.00" then Some (PyFloat.of_Z 75)
    else None;
  html_parser text :=
    if String.eqb text page_rejected then None
    else Some (default [] (PyDict.get pages text));
  toml_load text := PyDict.get configs text
|}.

(** One item with threshold 100, and a world that serves the given pages
    in turn, one per fetch, the clock showing the number of the fetch. *)
Definition config : list (string * string * number) := [("AK-47", "u1", NInt 100)].

Definition serving (texts : list (option string)) : world :=
  {| fetch_html n _ := default None (texts !! n);
     clock n := Z.of_nat n |}.

End Sample.

(** ** Predicates and sample data of the further properties *)

Definition is_nan (x : float) : bool :=
  match x with S754_nan => true | _ => false end.

Definition is_live_update (e : event) : bool :=
  match e with live_update _ => true | _ => false end.

Definition is_time_sleep (e : event) : bool :=
  match e with time_sleep _ => true | _ => false end.

(** The membership test, the subscript and the conversion of one row:
    [if 'sell_min_price' in stripped_data:] and
    [float(stripped_data['sell_min_price'])], the part of [row_price] that
    comes after the decoding and stripping of the payload. *)
Definition sell_min_price_of {L : Libraries} (stripped_data : pyobj)
  : result (option float) :=
  present ← py_contains stripped_data "sell_min_price";
  if present : bool
  then v ← py_getitem stripped_data "sell_min_price";
       x ← py_float v;
       mret (Some x)
  else mret None.

(** How often the display was refreshed, and how often the loop slept. *)
Definition live_updates (evs : list event) : nat :=
  length (List.filter is_live_update evs).

Definition sleeps (evs : list event) : nat :=
  length (List.filter is_time_sleep evs).

(** Every name in the alarm set belongs to an item whose recorded price is
    within its threshold. *)
Definition alarms_backed (st : monitor) : Prop :=
  ∀ name, name ∈ active_alarms st →
    ∃ it p, it ∈ items_data st ∧ display_name it = name ∧
            lowest_price it = Some p ∧ le_number p (alarm_price it) = true.

(** An item has a recorded price exactly when it has a recorded time. *)
Definition stamped (it : item) : Prop :=
  lowest_price it = None ↔ last_updated it = None.

(** The entry of [items] behind a raw item: a table with its three values. *)
Definition entry_of (e : pyobj) (r : raw_item) : Prop :=
  ∃ d, e = PDict d ∧
       PyDict.get d "display_name" = Some (raw_display_name r) ∧
       PyDict.get d "url" = Some (raw_url r) ∧
       PyDict.get d "alarm_price" = Some (raw_alarm_price r).

(** The entries of the dict comprehension of [_strip_recursive]. *)
Definition stripped_items (d : list (string * pyobj)) : list (string * pyobj) :=
  map (λ kv, (PyStr.strip kv.1, _strip_recursive (strip_if_str kv.2))) d.

Module Sample2.

(** A page whose first price is a NaN, added to the pages of [Sample]. *)
Definition rows_nan_first : list string := [Sample.payload "NaN"; Sample.payload "95"].

Definition page_nan_first : string := Sample.listing rows_nan_first.

#[export] Instance libraries_nan : Libraries := {|
  json_loads := json_loads (Libraries := Sample.libraries);
  float_of_str := float_of_str (Libraries := Sample.libraries);
  html_parser text :=
    if String.eqb text page_nan_first then Some (Sample.page rows_nan_first)
    else html_parser (Libraries := Sample.libraries) text;
  toml_load := toml_load (Libraries := Sample.libraries)
|}.

End Sample2.


(** * Theorems *)

#[local] Set Warnings "-clear-no-such-hyp".

(** ** Strings *)

Module PyStrFacts.
Import PyStr.

#[local] Arguments String.append !_ _ / : simpl nomatch.

Lemma app_cons a x y : String a x +:+ y = String a (x +:+ y).
Proof. reflexivity. Qed.

Lemma lstrip_split s : ∃ l, s = l +:+ lstrip s ∧ all_space l = true.
Proof.
  induction s as [|c s [l [Hs Hl]]]; simpl.
  - by exists "".
  - destruct (isspace c) eqn:Hc.
    + exists (String c l). split; [rewrite app_cons; f_equal; done|]. simpl. by rewrite Hc, Hl.
    + by exists "".
Qed.

Lemma rstrip_split s : ∃ r, s = rstrip s +:+ r ∧ all_space r = true.
Proof.
  induction s as [|c s [r [Hs Hr]]]; simpl.
  - by exists "".
  - destruct (rstrip s) as [|a t] eqn:Ht.
    + simpl in Hs. subst r. destruct (isspace c) eqn:Hc.
      * exists (String c s). simpl. by rewrite Hc, Hr.
      * exists s. by simpl.
    + exists r. split; [rewrite app_cons; f_equal; done|done].
Qed.

Lemma lstrip_first s c : first_char (lstrip s) = Some c → isspace c = false.
Proof.
  induction s as [|a s IH]; simpl; [done|].
  destruct (isspace a) eqn:Ha; [done|]. simpl. by intros [= <-].
Qed.

Lemma rstrip_last s c : last_char (rstrip s) = Some c → isspace c = false.
Proof.
  revert c. induction s as [|a s IH]; simpl; [done|]. intros c.
  destruct (rstrip s) as [|b t] eqn:Ht.
  - destruct (isspace a) eqn:Ha; simpl; [done|]. by intros [= <-].
  - intros H. apply IH. exact H.
Qed.

Lemma rstrip_first s c :
  first_char s = Some c → isspace c = false → first_char (rstrip s) = Some c.
Proof.
  destruct s as [|a s]; simpl; [done|]. intros [= ->] Hc.
  destruct (rstrip s); [by rewrite Hc|done].
Qed.

(** [strip] leaves no white space at either end. *)
Lemma strip_trimmed s : trimmed (strip s) = true.
Proof.
  unfold trimmed, strip.
  destruct (first_char (rstrip (lstrip s))) as [a|] eqn:Ha; [|done].
  destruct (last_char (rstrip (lstrip s))) as [b|] eqn:Hb; [|done].
  apply rstrip_last in Hb. rewrite Hb.
  destruct (first_char (lstrip s)) as [c|] eqn:Hc.
  - pose proof (lstrip_first _ _ Hc) as Hsp.
    rewrite (rstrip_first _ _ Hc Hsp) in Ha. injection Ha as <-. by rewrite Hsp.
  - destruct (lstrip s); [done|discriminate].
Qed.

(** [strip] only takes white space away, and only from the two ends. *)
Lemma strip_split s :
  ∃ l r, s = l +:+ strip s +:+ r ∧ all_space l = true ∧ all_space r = true.
Proof.
  destruct (lstrip_split s) as [l [Hl Hsl]].
  destruct (rstrip_split (lstrip s)) as [r [Hr Hsr]].
  exists l, r. unfold strip. by rewrite <- Hr.
Qed.

Lemma last_char_cons a s : last_char (String a s) ≠ None.
Proof. revert a. induction s as [|b s IH]; intros a; [done|]. exact (IH b). Qed.

Lemma strip_id s : trimmed s = true → strip s = s.
Proof.
  unfold trimmed, strip. destruct s as [|a s]; [done|]. simpl first_char.
  assert (Hlast : ∀ t b, last_char t = Some b → isspace b = false → rstrip t = t).
  { induction t as [|x t IH]; [done|]. intros b Hb Hsp. simpl.
    destruct t as [|y t].
    - simpl in *. injection Hb as ->. by rewrite Hsp.
    - rewrite (IH b); [done| |done]. exact Hb. }
  destruct (last_char (String a s)) as [b|] eqn:Hb.
  - intros [Ha Hsp]%andb_prop. apply negb_true_iff in Ha, Hsp.
    simpl lstrip. rewrite Ha. by apply (Hlast _ b).
  - by destruct (last_char_cons a s).
Qed.

Lemma startswith_nil s : startswith s "" = true.
Proof. by destruct s. Qed.

Lemma startswith_app s p : startswith (p +:+ s) p = true.
Proof. induction p as [|a p IH]; simpl; [by destruct s|]. by rewrite Ascii.eqb_refl. Qed.

Lemma replace_from_skip old new x s :
  replace_from old new (x +:+ s) (String.length x) = replace_from old new s 0.
Proof. induction x as [|a x IH]; simpl; [|done]. by destruct s. Qed.

(** An occurrence of [old] at the front is replaced, and the scan goes on
    behind it. *)
Lemma replace_from_match old new a s :
  replace_from (String a old) new (String a old +:+ s) 0
  = new +:+ replace_from (String a old) new s 0.
Proof.
  change (String a old +:+ s) with (String a (old +:+ s)).
  cbn [replace_from].
  change (String a (old +:+ s)) with (String a old +:+ s).
  rewrite startswith_app. cbn [String.length]. rewrite Nat.sub_succ, Nat.sub_0_r.
  by rewrite replace_from_skip.
Qed.

Lemma startswith_drop s p :
  startswith s p = true → s = p +:+ drop (String.length p) s.
Proof.
  revert s. induction p as [|a p IH]; intros s; [by destruct s|].
  destruct s as [|b s]; simpl; [done|].
  destruct (Ascii.eqb a b) eqn:Hab; [|done].
  apply Ascii.eqb_eq in Hab as ->. intros H. f_equal. by apply IH.
Qed.

(** Taking out one character leaves none of it behind. *)
Lemma replace_char_gone c s :
  has_char c (replace s (String c "") "") = false.
Proof.
  unfold replace. induction s as [|a s IH]; [done|].
  cbn [replace_from startswith]. rewrite startswith_nil.
  destruct (Ascii.eqb c a) eqn:Hca.
  - simpl. exact IH.
  - simpl. rewrite Ascii.eqb_sym, Hca. exact IH.
Qed.

Lemma replace_char_cons c a s :
  replace (String a s) (String c "") ""
  = (if Ascii.eqb a c then "" else String a "") +:+ replace s (String c "") "".
Proof.
  unfold replace. cbn [replace_from startswith]. rewrite startswith_nil.
  rewrite (Ascii.eqb_sym c a). by destruct (Ascii.eqb a c).
Qed.

Lemma replace_char_app c x y :
  replace (x +:+ y) (String c "") ""
  = replace x (String c "") "" +:+ replace y (String c "") "".
Proof.
  induction x as [|a x IH]; [done|].
  change (String a x +:+ y) with (String a (x +:+ y)).
  rewrite !replace_char_cons, IH. by destruct (Ascii.eqb a c).
Qed.

End PyStrFacts.

(** ** Payload normalization *)

Module CleanFacts.
Import PyStr PyStrFacts.

#[local] Arguments String.append !_ _ / : simpl nomatch.

Lemma clean_no_semicolon s : has_char ";" (clean s) = false.
Proof. apply replace_char_gone. Qed.

Lemma clean_entity s : clean ("&quot;" +:+ s) = dquote +:+ clean s.
Proof.
  unfold clean. unfold replace at 2.
  rewrite replace_from_match. fold (replace s "&quot;" dquote).
  by rewrite replace_char_app.
Qed.

Lemma clean_other c s :
  startswith (String c s) "&quot;" = false →
  clean (String c s) = (if Ascii.eqb c ";" then "" else String c "") +:+ clean s.
Proof.
  intros Hs. unfold clean. unfold replace at 2 4.
  cbn [replace_from]. rewrite Hs.
  by rewrite replace_char_cons.
Qed.

(** [clean] as one scan from left to right. *)
Lemma clean_cons c s :
  clean (String c s) =
  if startswith (String c s) "&quot;"
  then dquote +:+ clean (drop 5 s)
  else (if Ascii.eqb c ";" then "" else String c "") +:+ clean s.
Proof.
  destruct (startswith (String c s) "&quot;") eqn:Hs.
  - apply startswith_drop in Hs. rewrite Hs at 1. apply clean_entity.
  - by apply clean_other.
Qed.

End CleanFacts.

(** ** [_strip_recursive] *)

Lemma pyobj_nested_ind (P : pyobj → Prop) :
  P PNone → (∀ b, P (PBool b)) → (∀ n, P (PInt n)) → (∀ x, P (PFloat x)) →
  (∀ s, P (PStr s)) →
  (∀ l, Forall P l → P (PList l)) →
  (∀ d, Forall (λ kv, P kv.2) d → P (PDict d)) →
  (∀ t, P (PDatetime t)) →
  ∀ obj, P obj.
Proof.
  intros HNone HBool HInt HFloat HStr HList HDict HDate.
  fix IH 1.
  intros [ |b|n|x|s|l|d|t];
    [exact HNone|apply HBool|apply HInt|apply HFloat|apply HStr| | |apply HDate].
  - apply HList. induction l as [|o l IHl]; constructor; [apply IH|exact IHl].
  - apply HDict. induction d as [|[k v] d IHd]; constructor; [apply IH|exact IHd].
Qed.

Lemma dict_set_Forall {A} (Q : string * A → Prop) d k v :
  Forall Q d → Q (k, v) → Forall Q (PyDict.set d k v).
Proof.
  intros Hd Hkv. induction Hd as [|[k' v'] d Hk' Hd IH]; simpl.
  - by constructor.
  - destruct (String.eqb k' k) eqn:Hk.
    + apply String.eqb_eq in Hk as ->. by constructor.
    + by constructor.
Qed.

Lemma dict_of_items_Forall {A} (Q : string * A → Prop) kvs :
  Forall Q kvs → Forall Q (PyDict.of_items kvs).
Proof.
  unfold PyDict.of_items. intros Hkvs.
  assert (Hd : Forall Q (@nil (string * A))) by constructor.
  revert Hd. generalize (@nil (string * A)).
  induction Hkvs as [|[k v] kvs Hkv Hkvs IH]; intros d Hd; simpl; [done|].
  apply IH. by apply dict_set_Forall.
Qed.

(** The dict branch, as the comprehension is written in the source. *)
Lemma strip_recursive_dict_eq d :
  _strip_recursive (PDict d)
  = PDict (PyDict.of_items
             (map (λ kv, (PyStr.strip kv.1, _strip_recursive (strip_if_str kv.2))) d)).
Proof.
  simpl. do 2 f_equal. apply map_ext. intros [k v]. by destruct v.
Qed.

Lemma strip_recursive_trims obj :
  dict_strings_trimmed (_strip_recursive obj) = true.
Proof.
  induction obj as [ |b|n|x|s|l IH|d IH|t] using pyobj_nested_ind; try done.
  - simpl. apply forallb_forall. intros o [o' [<- Ho']]%in_map_iff.
    rewrite Forall_forall in IH. apply IH. by apply list_elem_of_In.
  - simpl. apply forallb_forall. intros kv Hkv%list_elem_of_In. revert kv Hkv.
    apply Forall_forall, dict_of_items_Forall, Forall_forall.
    intros [k' v'] [[k v] [[= <- <-] Hin]]%list_elem_of_In%in_map_iff.
    rewrite PyStrFacts.strip_trimmed. simpl.
    rewrite Forall_forall in IH. specialize (IH (k, v)).
    apply list_elem_of_In in Hin. specialize (IH Hin). simpl in IH.
    destruct v; try done. apply PyStrFacts.strip_trimmed.
Qed.

(** C7, as amended: before decoding, every [&quot;] becomes a double quote
    and every semicolon is removed; after decoding, every key of every
    object, and every string that is the value of a key, has its
    surrounding white space removed, at any depth (objects inside arrays
    included); a string that is an element of an array, or the payload
    itself, is returned as decoded. *)
Theorem normalization_trims_keys_and_dict_values :
  (∀ s, PyStr.has_char ";" (clean s) = false) ∧
  clean "" = "" ∧
  (∀ c s, clean (String c s) =
          if PyStr.startswith (String c s) "&quot;"
          then dquote +:+ clean (PyStr.drop 5 s)
          else (if Ascii.eqb c ";" then "" else String c "") +:+ clean s) ∧
  (∀ s, PyStr.trimmed (PyStr.strip s) = true ∧
        ∃ l r, s = l +:+ PyStr.strip s +:+ r ∧
               PyStr.all_space l = true ∧ PyStr.all_space r = true) ∧
  (∀ d, _strip_recursive (PDict d)
        = PDict (PyDict.of_items
                   (map (λ kv, (PyStr.strip kv.1, _strip_recursive (strip_if_str kv.2))) d))) ∧
  (∀ obj, dict_strings_trimmed (_strip_recursive obj) = true) ∧
  (∀ l, _strip_recursive (PList l) = PList (map _strip_recursive l)) ∧
  (∀ s, _strip_recursive (PStr s) = PStr s).
Proof.
  repeat split.
  - apply CleanFacts.clean_no_semicolon.
  - apply CleanFacts.clean_cons.
  - apply PyStrFacts.strip_trimmed.
  - apply PyStrFacts.strip_split.
  - apply strip_recursive_dict_eq.
  - apply strip_recursive_trims.
Qed.

(** C7, counterexample: a string inside an array keeps its white space. *)
Lemma string_inside_array_not_trimmed :
  _strip_recursive (PDict [("tags", PList [PStr " rare "])])
  = PDict [("tags", PList [PStr " rare "])] ∧
  ¬ (∀ obj, all_strings_trimmed (_strip_recursive obj) = true).
Proof.
  split; [reflexivity|].
  intros H. specialize (H (PDict [("tags", PList [PStr " rare "])])).
  discriminate H.
Qed.

(** ** The listing parser *)

(** Unfolds the sequencing of fallible steps. *)
Ltac unfold_result := unfold mbind, mret, result_bind, result_ret in *; simpl in *.

Section ParserFacts.
Context {L : Libraries}.

Lemma filter_none {A} (P : A → Prop) `{∀ x, Decision (P x)} (l : list A) :
  Forall (λ x, ¬ P x) l → filter P l = [].
Proof.
  induction 1 as [|x l Hx Hl IH]; [done|].
  rewrite filter_cons. by destruct (decide (P x)).
Qed.

Lemma find_absent soup name cls :
  Forall (λ n, Soup.matches name cls n = false) (Soup.descendants_of soup) →
  Soup.find soup name cls = None.
Proof.
  intros Hall. unfold Soup.find. rewrite filter_none; [done|].
  eapply Forall_impl; [exact Hall|]. simpl. intros n Hn. by rewrite Hn.
Qed.

(** What one row does to the prices gathered so far. *)
Lemma rows_loop_cons row rest prices :
  rows_loop (row :: rest) prices =
  match row_escape row with
  | Some e => Raise e
  | None =>
      match row_offer row with
      | Some x => rows_loop rest (prices ++ [x])
      | None => rows_loop rest prices
      end
  end.
Proof.
  unfold row_escape, row_offer. simpl.
  destruct (Soup.get row "data-goods-info") as [[|c s]|]; try done.
  destruct (row_price (String c s)) as [[x|]|e]; try done.
  by destruct (handled e).
Qed.

(** Without an exception that gets through, the result lists the offers of
    the rows in order. *)
Lemma rows_loop_offers rows prices :
  Forall (λ r, row_escape r = None) rows →
  rows_loop rows prices = Ok (prices ++ omap row_offer rows).
Proof.
  intros Hrows. revert prices.
  induction Hrows as [|row rows Hrow Hrows IH]; intros prices.
  - simpl. by rewrite app_nil_r.
  - rewrite rows_loop_cons, Hrow. simpl.
    destruct (row_offer row) as [x|]; rewrite IH; [|done].
    by rewrite <- app_assoc.
Qed.

(** The first exception that gets through ends the scan, whatever the
    other rows hold. *)
Lemma rows_loop_escape rows1 row rows2 prices e :
  Forall (λ r, row_escape r = None) rows1 →
  row_escape row = Some e →
  rows_loop (rows1 ++ row :: rows2) prices = Raise e.
Proof.
  intros Hrows He. revert prices.
  induction Hrows as [|r rows Hr Hrows IH]; intros prices; simpl app.
  - by rewrite rows_loop_cons, He.
  - rewrite rows_loop_cons, Hr. by destruct (row_offer r).
Qed.

Lemma row_price_offer s x :
  row_price s = Ok (Some x) →
  ∃ data v, json_loads (clean s) = Some data ∧
            py_getitem (_strip_recursive data) "sell_min_price" = Ok v ∧
            py_float v = Ok x.
Proof.
  unfold row_price. unfold_result.
  destruct (json_loads (clean s)) as [data|]; [|done].
  destruct (py_contains _ _) as [[|]|]; try done.
  destruct (py_getitem _ _) as [v|] eqn:Hg; [|done].
  destruct (py_float v) as [y|] eqn:Hv; [|done].
  intros [= <-]. by exists data, v.
Qed.

Lemma row_offer_converted row x :
  row_offer row = Some x →
  ∃ s data v, Soup.get row "data-goods-info" = Some s ∧
              json_loads (clean s) = Some data ∧
              py_getitem (_strip_recursive data) "sell_min_price" = Ok v ∧
              py_float v = Ok x.
Proof.
  unfold row_offer. destruct (Soup.get row _) as [[|c s]|] eqn:Hs; try done.
  destruct (row_price (String c s)) as [[y|]|] eqn:Hp; try done.
  intros [= ->]. apply row_price_offer in Hp as (data & v & ? & ? & ?).
  by exists (String c s), data, v.
Qed.

Lemma rows_loop_converted rows prices prices' (Q : float → Prop) :
  (∀ row x, row ∈ rows → row_offer row = Some x → Q x) →
  Forall Q prices →
  rows_loop rows prices = Ok prices' →
  Forall Q prices'.
Proof.
  revert prices. induction rows as [|row rows IH]; intros prices HQ Hp.
  - simpl. by intros [= <-].
  - rewrite rows_loop_cons. destruct (row_escape row); [done|].
    assert (HQ' : ∀ r x, r ∈ rows → row_offer r = Some x → Q x)
      by (intros r x Hr; apply HQ; by right).
    destruct (row_offer row) as [x|] eqn:Hx; [|by apply IH].
    apply IH; [done|]. apply Forall_app. split; [done|].
    constructor; [|done]. eapply HQ; [by left|done].
Qed.

(** The ways a row fails inside the [try], and what the handler makes of
    them. *)
Lemma row_price_undecodable s :
  json_loads (clean s) = None → row_price s = Raise JSONDecodeError.
Proof. unfold row_price. unfold_result. by intros ->. Qed.

Lemma row_price_field_absent s data :
  json_loads (clean s) = Some data →
  py_contains (_strip_recursive data) "sell_min_price" = Ok false →
  row_price s = Ok None.
Proof. unfold row_price. unfold_result. intros -> Hc. by rewrite Hc. Qed.

Lemma row_price_unconvertible s data v e :
  json_loads (clean s) = Some data →
  py_contains (_strip_recursive data) "sell_min_price" = Ok true →
  py_getitem (_strip_recursive data) "sell_min_price" = Ok v →
  py_float v = Raise e →
  row_price s = Raise e.
Proof.
  unfold row_price. unfold_result. intros -> Hc Hg Hv. by rewrite Hc, Hg, Hv.
Qed.

Lemma py_float_raises v e :
  py_float v = Raise e → e = ValueError ∨ e = TypeError ∨ e = OverflowError.
Proof.
  destruct v; simpl; try (intros [= <-]; auto; fail); try done.
  - destruct (PyFloat.is_finite _); [done|]. intros [= <-]. auto.
  - destruct (float_of_str s); [done|]. intros [= <-]. auto.
Qed.

End ParserFacts.

(** C5, as amended: on no input at all ([None] after a failed fetch, or
    the empty string), and on a page that the HTML parser accepts and in
    which no table of class [list_tb] occurs, [parse_listings] returns the
    empty list, and raises nothing. *)
Theorem parse_listings_empty {L : Libraries} (html : option string) :
  html = None ∨ html = Some "" ∨
  (∃ text soup, html = Some text ∧ html_parser text = Some soup ∧
                Forall (λ n, Soup.matches "table" "list_tb" n = false)
                       (Soup.descendants_of soup)) →
  parse_listings html = Ok [].
Proof.
  intros [->|[->|(text & soup & -> & Hsoup & Habsent)]]; try done.
  destruct text as [|c text]; [done|].
  unfold parse_listings. rewrite Hsoup. unfold parse_soup. by rewrite find_absent.
Qed.

Lemma parse_listings_empty_witness :
  parse_listings (L := Sample.libraries) None = Ok [] ∧
  parse_listings (L := Sample.libraries) (Some "") = Ok [] ∧
  parse_listings (L := Sample.libraries) (Some Sample.page_maintenance) = Ok [].
Proof.
  split; [|split].
  - apply (parse_listings_empty None). by left.
  - apply (parse_listings_empty (Some "")). right. by left.
  - apply (parse_listings_empty (Some Sample.page_maintenance)). right. right.
    exists Sample.page_maintenance, Sample.maintenance.
    split; [reflexivity|]. split; [reflexivity|].
    vm_compute. repeat constructor.
Defined.

(** C5, counterexample: a page without the listing table that the HTML
    parser rejects.  [BeautifulSoup(html, 'html.parser')] raises
    [ParserRejectedMarkup] on the marked section of this page; the call is
    made before the [try] of the rows, so the exception leaves
    [parse_listings]. *)
Lemma rejected_page_without_table_raises :
  PyStr.contains Sample.page_rejected "list_tb" = false ∧
  PyStr.contains Sample.page_rejected "<table" = false ∧
  html_parser (Libraries := Sample.libraries) Sample.page_rejected = None ∧
  parse_listings (L := Sample.libraries) (Some Sample.page_rejected)
  = Raise ParserRejectedMarkup ∧
  parse_listings (L := Sample.libraries) (Some Sample.page_rejected) ≠ Ok [].
Proof. repeat split; try reflexivity. discriminate. Qed.

(** Whatever the page holds, the exception of the parser is the outcome
    of [parse_listings], and it is not one the handler of the rows could
    have caught. *)
Lemma rejected_markup_raises {L : Libraries} (text : string) :
  text ≠ "" → html_parser text = None →
  parse_listings (Some text) = Raise ParserRejectedMarkup ∧
  handled ParserRejectedMarkup = false.
Proof.
  intros Htext Hnone. split; [|done].
  destruct text as [|c text]; [done|]. simpl. by rewrite Hnone.
Qed.

(** Rows that fail in one of the ways the handler names are passed over,
    and the rows around them still count. *)
Lemma handled_rows_are_isolated {L : Libraries} (soup : list node) (table : node) :
  Soup.find soup "table" "list_tb" = Some table →
  Forall (λ r, row_escape r = None) (Soup.find_all table "tr" "selling") →
  parse_soup soup = Ok (omap row_offer (Soup.find_all table "tr" "selling")).
Proof.
  intros Ht Hrows. unfold parse_soup. rewrite Ht.
  by rewrite rows_loop_offers.
Qed.

(** Scenario C of the specification: one corrupted row and two rows with
    the prices 80.00 and 75.00. *)
Lemma scenario_corrupted_row :
  parse_listings (L := Sample.libraries) (Some Sample.page_corrupt)
  = Ok [PyFloat.of_Z 80; PyFloat.of_Z 75] ∧
  py_min [PyFloat.of_Z 80; PyFloat.of_Z 75] = Some (PyFloat.of_Z 75).
Proof. split; reflexivity. Qed.

(** C6, where the code departs from it: a row whose [sell_min_price] is an
    integer too large for a float raises [OverflowError], which the handler
    does not name; the scan of the page ends there and the two well-formed
    rows beside it, worth 80.00 and 75.00 on their own, contribute
    nothing. *)
Theorem huge_price_aborts_page :
  parse_listings (L := Sample.libraries) (Some Sample.page_huge) = Raise OverflowError ∧
  html_parser (Libraries := Sample.libraries) Sample.page_huge
  = Some (Sample.page [Sample.payload (Sample.quoted "80.00");
                       Sample.payload Sample.huge;
                       Sample.payload (Sample.quoted "75.00")]) ∧
  parse_soup (L := Sample.libraries)
    (Sample.page [Sample.payload (Sample.quoted "80.00");
                  Sample.payload (Sample.quoted "75.00")])
  = Ok [PyFloat.of_Z 80; PyFloat.of_Z 75] ∧
  json_loads (Libraries := Sample.libraries) (clean (Sample.payload Sample.huge))
  = Some (PDict [("sell_min_price", PInt (10 ^ 400))]) ∧
  py_float (L := Sample.libraries) (PInt (10 ^ 400)) = Raise OverflowError ∧
  row_price (L := Sample.libraries) (Sample.payload Sample.huge) = Raise OverflowError ∧
  handled OverflowError = false.
Proof. repeat split; vm_compute; reflexivity. Qed.

(** C8, as amended: every price in the result is what [float] returned for
    the [sell_min_price] of the decoded and stripped payload of one of the
    selling rows of the listing table; a value
    on which [float] raises [ValueError] or [TypeError] is dropped and the
    scan goes on; a value that converts is appended whatever its sign, and
    also when it is an infinity or a NaN. *)
Theorem offers_are_float_conversions {L : Libraries} :
  (∀ text soup table prices,
     html_parser text = Some soup →
     Soup.find soup "table" "list_tb" = Some table →
     parse_listings (Some text) = Ok prices →
     Forall (λ x, ∃ row s data v,
                row ∈ Soup.find_all table "tr" "selling" ∧
                Soup.get row "data-goods-info" = Some s ∧
                json_loads (clean s) = Some data ∧
                py_getitem (_strip_recursive data) "sell_min_price" = Ok v ∧
                py_float v = Ok x) prices) ∧
  (∀ row rest prices s data v e,
     Soup.get row "data-goods-info" = Some s → s ≠ "" →
     json_loads (clean s) = Some data →
     py_contains (_strip_recursive data) "sell_min_price" = Ok true →
     py_getitem (_strip_recursive data) "sell_min_price" = Ok v →
     py_float v = Raise e → e ≠ OverflowError →
     rows_loop (row :: rest) prices = rows_loop rest prices) ∧
  (∀ row rest prices s data v x,
     Soup.get row "data-goods-info" = Some s → s ≠ "" →
     json_loads (clean s) = Some data →
     py_contains (_strip_recursive data) "sell_min_price" = Ok true →
     py_getitem (_strip_recursive data) "sell_min_price" = Ok v →
     py_float v = Ok x →
     rows_loop (row :: rest) prices = rows_loop rest (prices ++ [x])).
Proof.
  split; [|split].
  - intros [|c text] soup table prices Hsoup Htable; simpl; [by intros [= <-]|].
    rewrite Hsoup. unfold parse_soup. rewrite Htable.
    apply rows_loop_converted; [|done].
    intros row x Hrow (s & data & v & ? & ?)%row_offer_converted.
    by exists row, s, data, v.
  - intros row rest prices s data v e Hs Hne Hd Hc Hg Hv He.
    pose proof (row_price_unconvertible _ _ _ _ Hd Hc Hg Hv) as Hp.
    simpl. rewrite Hs. destruct s as [|c s]; [done|]. rewrite Hp.
    by destruct (py_float_raises _ _ Hv) as [-> | [-> | ->]].
  - intros row rest prices s data v x Hs Hne Hd Hc Hg Hv.
    simpl. rewrite Hs. destruct s as [|c s]; [done|].
    unfold row_price. unfold_result.
    by rewrite Hd, Hc, Hg, Hv.
Qed.

Lemma offers_are_float_conversions_witness :
  Forall (λ x, ∃ row s data v,
            row ∈ map Sample.row [Sample.payload "-5"; Sample.payload "Infinity";
                                  Sample.payload "NaN"] ∧
            Soup.get row "data-goods-info" = Some s ∧
            @json_loads Sample.libraries (clean s) = Some data ∧
            py_getitem (_strip_recursive data) "sell_min_price" = Ok v ∧
            py_float (L := Sample.libraries) v = Ok x)
         [PyFloat.of_Z (-5); S754_infinity false; S754_nan] ∧
  rows_loop (L := Sample.libraries)
    [Sample.row (Sample.payload "null");
     Sample.row (Sample.payload (Sample.quoted "75.00"))] []
  = rows_loop (L := Sample.libraries)
      [Sample.row (Sample.payload (Sample.quoted "75.00"))] [] ∧
  rows_loop (L := Sample.libraries)
    [Sample.row (Sample.payload "-5");
     Sample.row (Sample.payload (Sample.quoted "75.00"))] []
  = rows_loop (L := Sample.libraries)
      [Sample.row (Sample.payload (Sample.quoted "75.00"))] [PyFloat.of_Z (-5)].
Proof.
  destruct (offers_are_float_conversions (L := Sample.libraries)) as (Ha & Hb & Hc).
  split; [|split].
  - apply (Ha Sample.page_odd (Sample.page Sample.rows_odd)
               (Tag "table" ["list_tb"] []
                  (map Sample.row [Sample.payload "-5"; Sample.payload "Infinity";
                                   Sample.payload "NaN"])));
      reflexivity.
  - apply (Hb (Sample.row (Sample.payload "null")) _ []
               (Sample.payload "null") (Sample.price PNone) PNone TypeError);
      try reflexivity; discriminate.
  - apply (Hc (Sample.row (Sample.payload "-5")) _ []
               (Sample.payload "-5") (Sample.price (PInt (-5))) (PInt (-5)));
      try reflexivity; discriminate.
Defined.

(** C8, counterexample: rows whose [sell_min_price] is -5, [Infinity] and
    [NaN] put a negative, an infinite and a NaN price into the result. *)
Lemma negative_infinite_nan_offers :
  parse_listings (L := Sample.libraries) (Some Sample.page_odd)
  = Ok [PyFloat.of_Z (-5); S754_infinity false; S754_nan] ∧
  map PyFloat.finite_nonneg [PyFloat.of_Z (-5); S754_infinity false; S754_nan]
  = [false; false; false] ∧
  ¬ (∀ (L : Libraries) html prices,
       parse_listings html = Ok prices →
       Forall (λ x, PyFloat.finite_nonneg x = true) prices).
Proof.
  split; [reflexivity|]. split; [reflexivity|].
  intros Hall.
  specialize (Hall Sample.libraries (Some Sample.page_odd) _ eq_refl).
  apply Forall_cons in Hall as [Hneg _]. discriminate Hneg.
Qed.

(** ** The loop body *)

Section MonitorFacts.
Context {L : Libraries}.

Lemma poll_item_ok html prices now i st :
  parse_listings html = Ok prices →
  poll_item html now i st =
  Ok ((record_sample prices now i st).1,
      (if (record_sample prices now i st).2 then [play_alarm_sound] else [])
      ++ [live_update (generate_layout (items_data (record_sample prices now i st).1)
                                   (active_alarms (record_sample prices now i st).1))]).
Proof.
  intros Hp. unfold poll_item. rewrite Hp. unfold_result.
  by destruct (record_sample prices now i st).
Qed.

Lemma poll_item_inv html now i st st' evs :
  poll_item html now i st = Ok (st', evs) →
  ∃ prices, parse_listings html = Ok prices ∧
            st' = (record_sample prices now i st).1 ∧
            alarms_played evs = if (record_sample prices now i st).2 then 1 else 0.
Proof.
  destruct (parse_listings html) as [prices|e] eqn:Hp.
  - rewrite (poll_item_ok _ _ _ _ _ Hp). intros [= <- <-]. exists prices.
    split; [done|]. split; [done|]. by destruct (record_sample prices now i st).2.
  - unfold poll_item. rewrite Hp. by unfold_result.
Qed.

Lemma record_sample_empty now i st : record_sample [] now i st = (st, false).
Proof. unfold record_sample. by destruct (items_data st !! i). Qed.

(** The alarm set and the sound, case by case. *)
Lemma record_sample_alarm prices now i st it lowest :
  items_data st !! i = Some it →
  py_min prices = Some lowest →
  let name := display_name it in
  let st' := (record_sample prices now i st).1 in
  let played := (record_sample prices now i st).2 in
  (le_number lowest (alarm_price it) = true →
     active_alarms st' = {[name]} ∪ active_alarms st ∧
     played = negb (bool_decide (name ∈ active_alarms st))) ∧
  (le_number lowest (alarm_price it) = false →
     active_alarms st' = active_alarms st ∖ {[name]} ∧ played = false).
Proof.
  intros Hi Hmin. unfold record_sample. rewrite Hi, Hmin. simpl.
  destruct (le_number lowest (alarm_price it)); case_bool_decide; simpl;
    split; intros Hcmp; try done; split; try done; set_solver.
Qed.

Lemma record_sample_items prices now i st it lowest :
  items_data st !! i = Some it →
  py_min prices = Some lowest →
  items_data (record_sample prices now i st).1
  = <[i := {| display_name := display_name it; url := url it;
              alarm_price := alarm_price it;
              lowest_price := Some lowest; last_updated := Some now |}]>
      (items_data st).
Proof.
  intros Hi Hmin. unfold record_sample. rewrite Hi, Hmin.
  by destruct (le_number _ _); destruct (bool_decide _).
Qed.

(** A step leaves every name but that of its own item where it was. *)
Lemma record_sample_other_names prices now i st it other :
  items_data st !! i = Some it →
  other ≠ display_name it →
  other ∈ active_alarms (record_sample prices now i st).1 ↔ other ∈ active_alarms st.
Proof.
  intros Hi Hother. unfold record_sample. rewrite Hi.
  destruct (py_min prices) as [lowest|]; [|done].
  destruct (le_number lowest (alarm_price it)); case_bool_decide; simpl; set_solver.
Qed.

Lemma record_sample_absent prices now i st :
  items_data st !! i = None ∨ py_min prices = None →
  record_sample prices now i st = (st, false).
Proof.
  unfold record_sample. intros [->| ->]; [done|]. by destruct (items_data st !! i).
Qed.

End MonitorFacts.

(** C1: the alarm sound plays exactly on a change from inactive to active.
    When the lowest price of the cycle is there and within the threshold,
    the sound plays if and only if the name was not in the alarm set
    before; it never plays for a name that is already in the set, so
    neither on later cycles while the alarm stays active nor when the alarm
    is cleared; it never plays more than once in a step; and a step moves
    no name but that of its own item into or out of the set. *)
Theorem alarm_fires_once_per_activation {L : Libraries}
  (html : option string) (now : time) (i : nat) (st : monitor) (it : item)
  (prices : list float) :
  items_data st !! i = Some it →
  parse_listings html = Ok prices →
  ∃ st' evs,
    poll_item html now i st = Ok (st', evs) ∧
    (∀ other, other ≠ display_name it →
       (other ∈ active_alarms st' ↔ other ∈ active_alarms st)) ∧
    (∀ lowest, py_min prices = Some lowest →
       le_number lowest (alarm_price it) = true →
       display_name it ∈ active_alarms st' ∧
       (alarms_played evs = 1 ↔ (display_name it ∉ active_alarms st))) ∧
    (display_name it ∈ active_alarms st → alarms_played evs = 0) ∧
    (alarms_played evs = 1 ↔
     ((display_name it ∉ active_alarms st) ∧ (display_name it ∈ active_alarms st'))) ∧
    (alarms_played evs = 0 ∨ alarms_played evs = 1).
Proof.
  intros Hi Hp. eexists _, _. split; [by apply poll_item_ok|].
  split; [intros other Hother; by apply record_sample_other_names with it|].
  set (st' := (record_sample prices now i st).1).
  set (played := (record_sample prices now i st).2).
  assert (Hcount : ∀ l, alarms_played ((if played then [play_alarm_sound] else []) ++ [live_update l])
                        = if played then 1 else 0) by (intros l; by destruct played).
  rewrite Hcount. clear Hcount.
  destruct (py_min prices) as [lowest|] eqn:Hmin.
  - destruct (record_sample_alarm prices now i st it lowest Hi Hmin) as [Hle Hgt].
    fold st' played in Hle, Hgt.
    destruct (le_number lowest (alarm_price it)) eqn:Hcmp.
    + destruct (Hle eq_refl) as [Hset Hplayed]. rewrite Hset, Hplayed.
      assert (Hin : display_name it ∈ ({[display_name it]} ∪ active_alarms st : gset string))
        by set_solver.
      case_bool_decide as Hwas; simpl.
      * split; [intros ? _ _; split; [done|]; split; [done|intros ?; by exfalso]|].
        split; [done|]. split; [|auto]. split; [done|]. by intros [? _].
      * split; [intros ? _ _; split; [done|]; by split|].
        split; [intros ?; by exfalso|]. split; [|auto]. by split.
    + destruct (Hgt eq_refl) as [Hset Hplayed]. rewrite Hset, Hplayed.
      split; [intros ? [= <-]; by rewrite Hcmp|].
      split; [done|]. split; [|auto]. split; [done|].
      intros [_ Hin]. apply elem_of_difference in Hin as [_ Hin].
      exfalso. apply Hin. by apply elem_of_singleton.
  - subst st' played. rewrite record_sample_absent by auto. simpl.
    split; [done|]. split; [done|]. split; [|auto]. split; [done|].
    by intros [? ?].
Qed.

Lemma alarm_fires_once_per_activation_witness :
  ∃ st' evs,
    poll_item (L := Sample.libraries) (Some Sample.page_95) 1%Z 0 (initial Sample.config)
    = Ok (st', evs) ∧
    "AK-47" ∈ active_alarms st' ∧
    (alarms_played evs = 1 ↔ ("AK-47" ∉ active_alarms (initial Sample.config))).
Proof.
  destruct (alarm_fires_once_per_activation (L := Sample.libraries)
              (Some Sample.page_95) 1%Z 0 (initial Sample.config)
              (new_item "AK-47" "u1" (NInt 100)) [PyFloat.of_Z 95]
              eq_refl eq_refl) as (st' & evs & Hpoll & _ & Hwithin & _).
  exists st', evs. split; [exact Hpoll|].
  apply (Hwithin (PyFloat.of_Z 95)); reflexivity.
Defined.

(** C2: when the sample yields no prices, because the fetch failed or the
    parser returned the empty list, the step succeeds, the alarm set is
    what it was (no name added, none removed) and the alarm sound is not
    played. *)
Theorem empty_sample_keeps_alarm_state {L : Libraries}
  (html : option string) (now : time) (i : nat) (st : monitor) :
  html = None ∨ parse_listings html = Ok [] →
  ∃ st' evs,
    poll_item html now i st = Ok (st', evs) ∧
    active_alarms st' = active_alarms st ∧
    (∀ name, name ∈ active_alarms st' ↔ name ∈ active_alarms st) ∧
    alarms_played evs = 0.
Proof.
  intros Hempty.
  assert (Hp : parse_listings html = Ok []) by (by destruct Hempty as [->|]).
  eexists _, _. split; [by apply poll_item_ok|].
  by rewrite record_sample_empty.
Qed.

Lemma empty_sample_keeps_alarm_state_witness :
  ∃ st' evs,
    poll_item (L := Sample.libraries) None 2%Z 0
      {| items_data := [Item "AK-47" "u1" (NInt 100) (Some (PyFloat.of_Z 95)) (Some 1%Z)];
         active_alarms := {["AK-47"]} |} = Ok (st', evs) ∧
    active_alarms st' = {["AK-47"]} ∧
    (∀ name, name ∈ active_alarms st' ↔ name ∈ ({["AK-47"]} : gset string)) ∧
    alarms_played evs = 0.
Proof.
  exact (empty_sample_keeps_alarm_state (L := Sample.libraries) None 2%Z 0
           {| items_data := [Item "AK-47" "u1" (NInt 100) (Some (PyFloat.of_Z 95)) (Some 1%Z)];
              active_alarms := {["AK-47"]} |} (or_introl eq_refl)).
Defined.

(** C3: a step only touches the record of its own item, and touches its
    [lowest_price] and [last_updated] only when the sample holds a price:
    with no prices the whole state is what it was; with prices
    the two fields become the lowest of them and the time of the step.
    The name, the URL and the threshold never change. *)
Theorem empty_sample_keeps_recorded_price {L : Libraries}
  (html : option string) (now : time) (i : nat) (st : monitor) (prices : list float) :
  parse_listings html = Ok prices →
  ∃ st' evs,
    poll_item html now i st = Ok (st', evs) ∧
    (prices = [] → st' = st) ∧
    (∀ j, j ≠ i → items_data st' !! j = items_data st !! j) ∧
    (∀ it, items_data st !! i = Some it →
       ∃ it', items_data st' !! i = Some it' ∧
              display_name it' = display_name it ∧ url it' = url it ∧
              alarm_price it' = alarm_price it ∧
              match py_min prices with
              | None => lowest_price it' = lowest_price it ∧
                        last_updated it' = last_updated it
              | Some lowest => lowest_price it' = Some lowest ∧
                               last_updated it' = Some now
              end).
Proof.
  intros Hp. eexists _, _. split; [by apply poll_item_ok|].
  split; [intros ->; by rewrite record_sample_empty|].
  destruct (py_min prices) as [lowest|] eqn:Hmin.
  - split.
    + intros j Hj. destruct (items_data st !! i) as [it|] eqn:Hi.
      * rewrite (record_sample_items _ _ _ _ _ _ Hi Hmin).
        by rewrite list_lookup_insert_ne.
      * by rewrite record_sample_absent by auto.
    + intros it Hi. rewrite (record_sample_items _ _ _ _ _ _ Hi Hmin).
      eexists. split; [apply list_lookup_insert_eq; by eapply lookup_lt_Some|done].
  - rewrite record_sample_absent by auto. split; [done|].
    intros it Hi. by exists it.
Qed.

Lemma empty_sample_keeps_recorded_price_witness :
  ∃ st' evs,
    poll_item (L := Sample.libraries) (Some Sample.page_maintenance) 2%Z 0
      {| items_data := [Item "AK-47" "u1" (NInt 100) (Some (PyFloat.of_Z 95)) (Some 1%Z)];
         active_alarms := {["AK-47"]} |} = Ok (st', evs) ∧
    st' = {| items_data := [Item "AK-47" "u1" (NInt 100) (Some (PyFloat.of_Z 95)) (Some 1%Z)];
             active_alarms := {["AK-47"]} |}.
Proof.
  destruct (empty_sample_keeps_recorded_price (L := Sample.libraries)
              (Some Sample.page_maintenance) 2%Z 0
              {| items_data := [Item "AK-47" "u1" (NInt 100) (Some (PyFloat.of_Z 95)) (Some 1%Z)];
                 active_alarms := {["AK-47"]} |} [] eq_refl)
    as (st' & evs & Hpoll & Hsame & _).
  exists st', evs. split; [exact Hpoll|]. apply Hsame. reflexivity.
Defined.

(** ** The alarm set along a run *)

Section InvariantFacts.
Context {L : Libraries}.

(** [map] and stdpp's [fmap] on lists are the same function. *)
Lemma map_fmap {A B} (f : A → B) (l : list A) : map f l = f <$> l.
Proof. reflexivity. Qed.

Lemma record_sample_tracked prices now i st :
  tracked_part <$> items_data (record_sample prices now i st).1
  = tracked_part <$> items_data st.
Proof.
  destruct (items_data st !! i) as [it|] eqn:Hi;
    [|by rewrite record_sample_absent by auto].
  destruct (py_min prices) as [lowest|] eqn:Hmin;
    [|by rewrite record_sample_absent by auto].
  rewrite (record_sample_items _ _ _ _ _ _ Hi Hmin), list_fmap_insert.
  apply list_insert_id. by rewrite list_lookup_fmap, Hi.
Qed.

Lemma tracked_names (items : list item) :
  display_name <$> items = (λ c, c.1.1) <$> (tracked_part <$> items).
Proof. rewrite <- list_fmap_compose. by apply list_fmap_ext. Qed.

Lemma record_sample_invariant prices now i st :
  NoDup (display_name <$> items_data st) →
  alarm_invariant st →
  alarm_invariant (record_sample prices now i st).1.
Proof.
  intros Hnd Hinv.
  destruct (items_data st !! i) as [it|] eqn:Hi;
    [|by rewrite record_sample_absent by auto].
  destruct (py_min prices) as [lowest|] eqn:Hmin;
    [|by rewrite record_sample_absent by auto].
  pose proof (record_sample_items _ now _ _ _ _ Hi Hmin) as Hitems.
  destruct (record_sample_alarm _ now _ _ _ _ Hi Hmin) as [Hle Hgt].
  intros it0 Hin0. rewrite Hitems in Hin0.
  apply list_elem_of_lookup in Hin0 as [j Hj].
  destruct (decide (j = i)) as [->|Hne].
  - rewrite list_lookup_insert_eq in Hj by (by eapply lookup_lt_Some).
    injection Hj as <-. simpl.
    destruct (le_number lowest (alarm_price it)) eqn:Hcmp.
    + destruct (Hle eq_refl) as [-> _]. split; [by eauto|]. intros _. set_solver.
    + destruct (Hgt eq_refl) as [-> _]. split; [set_solver|].
      intros (p & [= <-] & Hp). congruence.
  - rewrite list_lookup_insert_ne in Hj by done.
    assert (Hname : display_name it0 ≠ display_name it).
    { intros Heq. apply Hne. eapply NoDup_lookup; [exact Hnd| |].
      - by rewrite list_lookup_fmap, Hj.
      - by rewrite list_lookup_fmap, Hi, Heq. }
    assert (Hit0 : it0 ∈ items_data st) by (apply list_elem_of_lookup; eauto).
    rewrite <- (Hinv it0 Hit0).
    destruct (le_number lowest (alarm_price it)).
    + destruct (Hle eq_refl) as [-> _]. set_solver.
    + destruct (Hgt eq_refl) as [-> _]. set_solver.
Qed.

Lemma initial_tracked config : tracked_part <$> items_data (initial config) = config.
Proof.
  unfold initial. simpl.
  induction config as [|[[n u] t] config IH]; [done|].
  simpl. f_equal. exact IH.
Qed.

Lemma initial_invariant config : alarm_invariant (initial config).
Proof.
  intros it Hit. unfold initial in *. simpl in *.
  change (it ∈ (λ c, new_item c.1.1 c.1.2 c.2) <$> config) in Hit.
  apply list_elem_of_fmap in Hit as (c & -> & _). simpl.
  split; [set_solver|]. by intros (p & ? & _).
Qed.

(** Along any run the configured part of the items stays what the
    configuration says, and the alarm set obeys its invariant. *)
Lemma reachable_invariant config st :
  NoDup ((λ c, c.1.1) <$> config) →
  reachable config st →
  tracked_part <$> items_data st = config ∧ alarm_invariant st.
Proof.
  intros Hnd. induction 1 as [|st html now i st' evs Hreach [Htr Hinv] Hi Hpoll].
  - split; [apply initial_tracked|apply initial_invariant].
  - apply poll_item_inv in Hpoll as (prices & _ & -> & _). split.
    + by rewrite record_sample_tracked.
    + apply record_sample_invariant; [|done]. by rewrite tracked_names, Htr.
Qed.

Lemma for_items_reachable config w n i tick st st' evs :
  reachable config st →
  for_items w n i tick st = Ok (st', evs) →
  reachable config st'.
Proof.
  revert i tick st evs. induction n as [|n IH]; intros i tick st evs Hreach; simpl.
  - by intros [= <- _].
  - destruct (items_data st !! i) as [it|] eqn:Hi; [|by intros [= <- _]].
    unfold_result.
    destruct (poll_item _ _ i st) as [[st1 ev1]|] eqn:Hpoll; [|done].
    destruct (for_items w n (S i) (S tick) st1) as [[st2 ev2]|] eqn:Hrest; [|done].
    intros [= <- _]. eapply IH; [|exact Hrest].
    eapply reachable_poll; [exact Hreach| |exact Hpoll]. by eapply lookup_lt_Some.
Qed.

Lemma run_reachable config w cycles tick st st' evs :
  reachable config st →
  run w cycles tick st = Ok (st', evs) →
  reachable config st'.
Proof.
  revert tick st evs. induction cycles as [|c IH]; intros tick st evs Hreach; simpl.
  - by intros [= <- _].
  - unfold_result.
    destruct (for_items w _ 0 tick st) as [[st1 ev1]|] eqn:Hsweep; [|done].
    destruct (run w c _ st1) as [[st2 ev2]|] eqn:Hrest; [|done].
    intros [= <- _]. eapply IH; [|exact Hrest].
    by eapply for_items_reachable.
Qed.

End InvariantFacts.

(** C4, as amended: in every state the loop reaches, with items of pairwise
    distinct names (the alarm set is keyed by name), the name of an item
    is in the alarm set if and only if a lowest price is recorded for the
    item and that price is within the item's threshold.  The recorded price
    is the one of the latest sample that held a price, and the threshold
    is the configured one throughout. *)
Theorem alarm_set_matches_recorded_price {L : Libraries}
  (config : list (string * string * number)) :
  NoDup (map (λ c, c.1.1) config) →
  (∀ w cycles st evs,
     run w cycles 0 (initial config) = Ok (st, evs) → reachable config st) ∧
  (∀ st, reachable config st →
     map (λ it, (display_name it, url it, alarm_price it)) (items_data st) = config ∧
     ∀ it, it ∈ items_data st →
       (display_name it ∈ active_alarms st ↔
        ∃ p, lowest_price it = Some p ∧ le_number p (alarm_price it) = true)).
Proof.
  intros Hnd. split.
  - intros w cycles st evs Hrun.
    eapply run_reachable; [apply reachable_initial|exact Hrun].
  - intros st Hst. by apply reachable_invariant.
Qed.

Lemma alarm_set_matches_recorded_price_witness :
  ∃ st evs,
    run (L := Sample.libraries)
        (Sample.serving [Some Sample.page_150; Some Sample.page_95; None; Some Sample.page_120])
        4 0 (initial Sample.config) = Ok (st, evs) ∧
    alarm_invariant st.
Proof.
  assert (Hnd : NoDup (map (λ c : string * string * number, c.1.1) Sample.config)).
  { constructor; [|constructor]. intros Hin. inversion Hin. }
  destruct (run (L := Sample.libraries)
              (Sample.serving [Some Sample.page_150; Some Sample.page_95; None; Some Sample.page_120])
              4 0 (initial Sample.config)) as [[st evs]|e] eqn:Hrun.
  - exists st, evs. split; [reflexivity|].
    destruct (alarm_set_matches_recorded_price (L := Sample.libraries) Sample.config Hnd)
      as [Hreach Hinv].
    exact (proj2 (Hinv st (Hreach _ _ _ _ Hrun))).
  - vm_compute in Hrun. discriminate Hrun.
Defined.

(** C4, counterexample: nothing in [main] makes the names distinct, and two
    items that share a name share one entry of the alarm set.  After one
    round the first item has the recorded price 95 within its threshold
    100 and no later sample, yet its name is not in the alarm set: the
    second item, with the threshold 50, cleared the alarm the first one
    raised. *)
Lemma shared_name_shares_alarm :
  ∃ st evs,
    run (L := Sample.libraries)
        (Sample.serving [Some Sample.page_95; Some Sample.page_95]) 1 0
        (initial [("AK-47", "u1", NInt 100); ("AK-47", "u2", NInt 50)])
    = Ok (st, evs) ∧
    items_data st
    = [Item "AK-47" "u1" (NInt 100) (Some (PyFloat.of_Z 95)) (Some 0%Z);
       Item "AK-47" "u2" (NInt 50) (Some (PyFloat.of_Z 95)) (Some 1%Z)] ∧
    ("AK-47" ∉ active_alarms st) ∧
    alarms_played evs = 1 ∧
    ¬ alarm_invariant st.
Proof.
  eexists _, _. split; [vm_compute; reflexivity|].
  assert (Hout : "AK-47" ∉ active_alarms
                   (Monitor [Item "AK-47" "u1" (NInt 100) (Some (PyFloat.of_Z 95)) (Some 0%Z);
                             Item "AK-47" "u2" (NInt 50) (Some (PyFloat.of_Z 95)) (Some 1%Z)]
                            (({[ "AK-47" ]} ∪ ∅) ∖ {[ "AK-47" ]}))) by set_solver.
  split; [reflexivity|]. split; [exact Hout|]. split; [reflexivity|].
  intros Hinv. apply Hout.
  apply (Hinv (Item "AK-47" "u1" (NInt 100) (Some (PyFloat.of_Z 95)) (Some 0%Z))).
  - by left.
  - exists (PyFloat.of_Z 95). split; reflexivity.
Qed.

(** ** The alarm footer *)

Lemma alarm_line_elem (items : list item) (n name : string) (p : float) :
  (name, p) ∈ alarm_line items n ↔
  name = n ∧
  ∃ it, List.find (λ it, String.eqb (display_name it) n) items = Some it ∧
        lowest_price it = Some p ∧ PyFloat.truthy p = true.
Proof.
  unfold alarm_line. split.
  - destruct (List.find _ items) as [it|]; [|by intros ?%elem_of_nil].
    destruct (lowest_price it) as [q|] eqn:Hq; [|by intros ?%elem_of_nil].
    destruct (PyFloat.truthy q) eqn:Htrue; [|by intros ?%elem_of_nil].
    intros [= -> ->]%list_elem_of_singleton. split; [done|]. by exists it.
  - intros (-> & it & -> & -> & ->). by apply list_elem_of_singleton.
Qed.

(** A name has a line in the footer exactly when it is in the alarm set
    and the item looked up for it has a price that counts as true. *)
Lemma alarm_lines_elem (items : list item) (alarms : gset string) (name : string) (p : float) :
  (name, p) ∈ alarm_lines (generate_layout items alarms) ↔
  name ∈ alarms ∧ (name, p) ∈ alarm_line items name.
Proof.
  unfold generate_layout. simpl. destruct (decide (alarms = ∅)) as [->|Hne].
  - split; [by intros ?%elem_of_nil|]. intros [?%not_elem_of_empty _]. done.
  - rewrite list_elem_of_In, in_flat_map. split.
    + intros (n & Hn & Hline). apply list_elem_of_In in Hn, Hline.
      rewrite merge_sort_Permutation, elem_of_elements in Hn.
      pose proof (proj1 (alarm_line_elem _ _ _ _) Hline) as [-> _]. done.
    + intros [Hin Hline]. exists name. split; apply list_elem_of_In; [|done].
      by rewrite merge_sort_Permutation, elem_of_elements.
Qed.

(** C10: a name in the alarm set gets no line in the alarm footer when the
    price recorded for the item the footer looks up under that name (the
    first item of that name, the only one when names are distinct) is
    [None] or a zero; the alarm set itself is not changed by the display,
    and the footer is still sized for every name in it. *)
Theorem footer_omits_missing_or_zero_price
  (items : list item) (alarms : gset string) (name : string) (it : item) :
  name ∈ alarms →
  List.find (λ it, String.eqb (display_name it) name) items = Some it →
  lowest_price it = None ∨ (∃ p, lowest_price it = Some p ∧ PyFloat.is_zero p = true) →
  (∀ p, (name, p) ∉ alarm_lines (generate_layout items alarms)) ∧
  footer_size (generate_layout items alarms) = size alarms + 4.
Proof.
  intros Hin Hfind Hprice. split; [|done].
  intros p [_ Hline]%alarm_lines_elem.
  apply alarm_line_elem in Hline as (_ & it' & Hfind' & Hp & Htrue).
  rewrite Hfind in Hfind'. injection Hfind' as <-.
  destruct Hprice as [Hnone|(q & Hq & Hzero)]; [congruence|].
  rewrite Hp in Hq. injection Hq as <-.
  unfold PyFloat.is_zero in Hzero. by rewrite Htrue in Hzero.
Qed.

Lemma footer_omits_missing_or_zero_price_witness :
  (∀ p, ("AK-47", p) ∉
        alarm_lines (generate_layout
                       [Item "AK-47" "u1" (NInt 100) (Some (PyFloat.of_Z 0)) (Some 5%Z)]
                       {["AK-47"]})) ∧
  footer_size (generate_layout
                 [Item "AK-47" "u1" (NInt 100) (Some (PyFloat.of_Z 0)) (Some 5%Z)]
                 {["AK-47"]}) = size ({["AK-47"]} : gset string) + 4.
Proof.
  apply (footer_omits_missing_or_zero_price
           [Item "AK-47" "u1" (NInt 100) (Some (PyFloat.of_Z 0)) (Some 5%Z)]
           {["AK-47"]} "AK-47"
           (Item "AK-47" "u1" (NInt 100) (Some (PyFloat.of_Z 0)) (Some 5%Z))).
  - apply elem_of_singleton. reflexivity.
  - reflexivity.
  - right. exists (PyFloat.of_Z 0). split; reflexivity.
Defined.

(** The state of the witness is one the loop reaches: a page whose only
    price is 0 raises the alarm and leaves the footer empty. *)
Lemma zero_price_alarm_without_line :
  ∃ st l,
    run (L := Sample.libraries) (Sample.serving [Some Sample.page_0]) 1 0
        (initial Sample.config)
    = Ok (st, [play_alarm_sound; live_update l; time_sleep 10]) ∧
    items_data st = [Item "AK-47" "u1" (NInt 100) (Some (PyFloat.of_Z 0)) (Some 0%Z)] ∧
    "AK-47" ∈ active_alarms st ∧
    alarm_lines l = [].
Proof.
  eexists _, _. split; [vm_compute; reflexivity|].
  split; [reflexivity|]. split; [|reflexivity].
  eapply bool_decide_unpack. vm_compute. exact I.
Qed.

(** ** Start-up *)

Section StartupFacts.
Context {L : Libraries}.







End StartupFacts.




(** A failure after start-up that ends the process: the loop of [main]
    has no handler for the exception a price too large for a float raises
    in the parser. *)
Lemma parser_overflow_ends_the_run :
  run (L := Sample.libraries)
      (Sample.serving [Some Sample.page_95; Some Sample.page_huge]) 2 0
      (initial Sample.config)
  = Raise OverflowError ∧
  exit_status (Raise (A := monitor * list event) OverflowError) = Some 1%Z.
Proof. split; [vm_compute|]; reflexivity. Qed.

(** The same holds for the exception of the HTML parser: a page it rejects
    ends the run, also when an alarm is active. *)
Lemma rejected_markup_ends_the_run :
  run (L := Sample.libraries)
      (Sample.serving [Some Sample.page_95; Some Sample.page_rejected]) 2 0
      (initial Sample.config)
  = Raise ParserRejectedMarkup ∧
  exit_status (Raise (A := monitor * list event) ParserRejectedMarkup) = Some 1%Z.
Proof. split; [vm_compute|]; reflexivity. Qed.

(** ** The scenarios of the specification *)

(** A row that fails in one of the ways the handler names neither adds a
    price nor lets an exception through: a payload that does not decode, a
    decoded payload without the field (or one on which the test for the
    field raises), a value [float] rejects with [ValueError] or
    [TypeError]. *)
Lemma named_failures_are_handled {L : Libraries} (row : node) (s : string) :
  Soup.get row "data-goods-info" = Some s →
  json_loads (clean s) = None ∨
  (∃ data, json_loads (clean s) = Some data ∧
           (py_contains (_strip_recursive data) "sell_min_price" = Ok false ∨
            py_contains (_strip_recursive data) "sell_min_price" = Raise TypeError)) ∨
  (∃ data v e, json_loads (clean s) = Some data ∧
               py_contains (_strip_recursive data) "sell_min_price" = Ok true ∧
               py_getitem (_strip_recursive data) "sell_min_price" = Ok v ∧
               py_float v = Raise e ∧ e ≠ OverflowError) →
  row_offer row = None ∧ row_escape row = None.
Proof.
  intros Hs Hfail. unfold row_offer, row_escape. rewrite Hs.
  destruct s as [|c s]; [done|].
  destruct Hfail as [Hd|[(data & Hd & [Hc|Hc])|(data & v & e & Hd & Hc & Hg & Hv & He)]].
  - by rewrite (row_price_undecodable _ Hd).
  - by rewrite (row_price_field_absent _ _ Hd Hc).
  - unfold row_price. unfold_result. by rewrite Hd, Hc.
  - rewrite (row_price_unconvertible _ _ _ _ Hd Hc Hg Hv).
    by destruct (py_float_raises _ _ Hv) as [-> | [-> | ->]].
Qed.

(** A payload that reaches the script with its entities still in place and
    a stray semicolon decodes like the clean one. *)
Lemma scenario_escaped_payload :
  clean "{&quot;sell_min_price&quot;;: &quot;80.00&quot;}"
  = Sample.payload (Sample.quoted "80.00") ∧
  parse_soup (L := Sample.libraries)
    (Sample.page ["{&quot;sell_min_price&quot;;: &quot;80.00&quot;}"])
  = Ok [PyFloat.of_Z 80].
Proof. split; reflexivity. Qed.

(** Payloads that are not objects, or that lack the field, add nothing. *)
Lemma rows_without_price_are_skipped :
  parse_soup (L := Sample.libraries)
    (Sample.page ["[" +:+ Sample.quoted "sell_min_price" +:+ "]";
                  "{" +:+ Sample.quoted "name" +:+ ": " +:+ Sample.quoted "AK-47" +:+ "}";
                  Sample.payload "null";
                  Sample.payload (Sample.quoted " 75.00 ")])
  = Ok [PyFloat.of_Z 75].
Proof. reflexivity. Qed.

(** Scenario A: threshold 100 and the prices 150, 95, 90, 120 in four
    cycles; the alarm sounds once, in the second cycle, and is clear at the
    end. *)
Lemma scenario_threshold_crossing :
  ∃ st evs,
    run (L := Sample.libraries)
        (Sample.serving [Some Sample.page_150; Some Sample.page_95; Some Sample.page_90;
                         Some Sample.page_120])
        4 0 (initial Sample.config) = Ok (st, evs) ∧
    map is_play_alarm evs
    = [false; false; true; false; false; false; false; false; false] ∧
    alarms_played evs = 1 ∧
    ("AK-47" ∉ active_alarms st) ∧
    items_data st = [Item "AK-47" "u1" (NInt 100) (Some (PyFloat.of_Z 120)) (Some 3%Z)].
Proof.
  eexists _, _. split; [vm_compute; reflexivity|].
  split; [reflexivity|]. split; [reflexivity|]. split; [|reflexivity].
  intros Hin. apply (bool_decide_pack _) in Hin. vm_compute in Hin. exact Hin.
Qed.

(** Scenario B: the fetch fails in the cycle after the alarm was raised at
    95; the alarm stays, the recorded price and time stay, no sound. *)
Lemma scenario_failed_fetch :
  ∃ st evs,
    run (L := Sample.libraries) (Sample.serving [Some Sample.page_95; None])
        2 0 (initial Sample.config) = Ok (st, evs) ∧
    alarms_played evs = 1 ∧
    ("AK-47" ∈ active_alarms st) ∧
    items_data st = [Item "AK-47" "u1" (NInt 100) (Some (PyFloat.of_Z 95)) (Some 0%Z)].
Proof.
  eexists _, _. split; [vm_compute; reflexivity|].
  split; [reflexivity|]. split; [|reflexivity].
  eapply bool_decide_unpack. vm_compute. exact I.
Qed.

(** * Further properties of the code *)

(** ** Float comparison and [min] *)

Module PyFloatFacts.
Import PyFloat.

Ltac compare_cases :=
  repeat match goal with
         | |- context [Z.compare ?a ?b] => destruct (Z.compare_spec a b)
         | |- context [Pos.compare_cont Eq ?a ?b] =>
             change (Pos.compare_cont Eq a b) with (Pos.compare a b);
             destruct (Pos.compare_spec a b)
         end;
  subst; simpl; try done; try lia.

Ltac float_cases x := destruct x as [[|]|[|]| |[|] ? ?].

Lemma le_refl x : is_nan x = false → le x x = true.
Proof.
  unfold le, SFleb, SFcompare. float_cases x; simpl; try done; intros _; compare_cases.
Qed.

Lemma lt_le x y : lt x y = true → le x y = true.
Proof.
  unfold lt, le, SFltb, SFleb. by destruct (SFcompare x y) as [[ | | ]|].
Qed.

Lemma not_lt_le x y :
  is_nan x = false → is_nan y = false → lt y x = false → le x y = true.
Proof.
  unfold lt, le, SFltb, SFleb, SFcompare.
  float_cases x; float_cases y; simpl; try done; intros _ _; compare_cases.
Qed.

Lemma le_trans x y z : le x y = true → le y z = true → le x z = true.
Proof.
  unfold le, SFleb, SFcompare.
  float_cases x; float_cases y; float_cases z; simpl; try done; compare_cases.
Qed.

Lemma lt_nan_r x : lt x S754_nan = false.
Proof. unfold lt, SFltb, SFcompare. by destruct x. Qed.

Lemma lt_nan_l x : lt S754_nan x = false.
Proof. done. Qed.

Lemma le_nan_l x : le S754_nan x = false.
Proof. done. Qed.

End PyFloatFacts.

Section MinFacts.
Import PyFloat PyFloatFacts.

Lemma fold_min_elem rest a :
  fold_left (λ m y, if lt y m then y else m) rest a ∈ a :: rest.
Proof.
  revert a. induction rest as [|y rest IH]; intros a; simpl; [by left|].
  specialize (IH (if lt y a then y else a)).
  apply elem_of_cons in IH as [->|Hin].
  - destruct (lt y a); [right; by left|by left].
  - by do 2 right.
Qed.

Lemma fold_min_bound rest a :
  is_nan a = false →
  Forall (λ x, is_nan x = false) rest →
  Forall (λ x, le (fold_left (λ m y, if lt y m then y else m) rest a) x = true)
         (a :: rest).
Proof.
  intros Ha Hrest. revert a Ha.
  induction Hrest as [|y rest Hy Hrest IH]; intros a Ha; simpl.
  - constructor; [by apply le_refl|constructor].
  - destruct (lt y a) eqn:Hlt.
    + specialize (IH y Hy). apply Forall_cons in IH as [Hm Hall].
      constructor; [|by constructor].
      eapply le_trans; [exact Hm|]. by apply lt_le.
    + specialize (IH a Ha). apply Forall_cons in IH as [Hm Hall].
      constructor; [done|]. constructor; [|done].
      eapply le_trans; [exact Hm|]. by apply not_lt_le.
Qed.

Lemma fold_min_nan rest :
  fold_left (λ m y, if lt y m then y else m) rest S754_nan = S754_nan.
Proof. induction rest as [|y rest IH]; simpl; [done|]. by rewrite lt_nan_r. Qed.

Lemma fold_min_skips_nan rest a :
  fold_left (λ m y, if lt y m then y else m) rest a
  = fold_left (λ m y, if lt y m then y else m)
              (List.filter (λ x, negb (is_nan x)) rest) a.
Proof.
  revert a. induction rest as [|y rest IH]; intros a; simpl; [done|].
  destruct y as [s|s| |s m e]; simpl; by rewrite IH.
Qed.

End MinFacts.

(** X1: the lowest price is one of the prices, and when none of them is a
    NaN it is at most each of them. *)
Theorem lowest_price_is_minimum (prices : list float) (lowest : float) :
  py_min prices = Some lowest →
  lowest ∈ prices ∧
  (Forall (λ x, is_nan x = false) prices →
   Forall (λ x, PyFloat.le lowest x = true) prices).
Proof.
  destruct prices as [|a rest]; [done|]. intros [= <-]. split.
  - apply fold_min_elem.
  - intros [Ha Hrest]%Forall_cons. by apply fold_min_bound.
Qed.

Lemma lowest_price_is_minimum_witness :
  PyFloat.of_Z 75 ∈ [PyFloat.of_Z 80; PyFloat.of_Z 75; PyFloat.of_Z 90] ∧
  Forall (λ x, PyFloat.le (PyFloat.of_Z 75) x = true)
         [PyFloat.of_Z 80; PyFloat.of_Z 75; PyFloat.of_Z 90].
Proof.
  destruct (lowest_price_is_minimum
              [PyFloat.of_Z 80; PyFloat.of_Z 75; PyFloat.of_Z 90] (PyFloat.of_Z 75) eq_refl)
    as [Hin Hbound].
  split; [exact Hin|]. apply Hbound. repeat constructor.
Defined.

(** X2: a NaN is never smaller than anything, so [min] returns a NaN that
    comes first whatever follows, and passes over a NaN anywhere else. *)
Theorem lowest_price_with_nan (x : float) (rest : list float) :
  py_min (S754_nan :: rest) = Some S754_nan ∧
  py_min (x :: rest) = py_min (x :: List.filter (λ y, negb (is_nan y)) rest).
Proof.
  split; simpl; f_equal; [apply fold_min_nan|apply fold_min_skips_nan].
Qed.

(** ** More on the normalization *)

Section DictFacts.
Context {A : Type}.
Implicit Types (d kvs : list (string * A)) (k : string) (v : A).

Lemma dict_get_app d1 d2 k :
  PyDict.get (d1 ++ d2) k
  = match PyDict.get d1 k with Some v => Some v | None => PyDict.get d2 k end.
Proof.
  induction d1 as [|[k' v'] d1 IH]; simpl; [done|]. by destruct (String.eqb k' k).
Qed.

Lemma dict_get_set d k v k' :
  PyDict.get (PyDict.set d k v) k'
  = if String.eqb k k' then Some v else PyDict.get d k'.
Proof.
  induction d as [|[k0 v0] d IH]; simpl.
  - done.
  - destruct (String.eqb k0 k) eqn:Hk; simpl.
    + apply String.eqb_eq in Hk as ->. by destruct (String.eqb k k').
    + rewrite IH. destruct (String.eqb k0 k') eqn:Hk'; [|done].
      apply String.eqb_eq in Hk' as ->. by rewrite String.eqb_sym, Hk.
Qed.

Lemma dict_get_None d k : PyDict.get d k = None ↔ k ∉ d.*1.
Proof.
  induction d as [|[k' v'] d IH]; simpl.
  - split; [intros _; apply not_elem_of_nil|done].
  - rewrite not_elem_of_cons. destruct (String.eqb k' k) eqn:Hk.
    + apply String.eqb_eq in Hk as ->. split; [done|]. by intros [? _].
    + apply String.eqb_neq in Hk. rewrite IH. split; [|by intros [_ ?]].
      intros ?. split; [|done]. by intros ->.
Qed.

Lemma dict_set_fresh d k v : k ∉ d.*1 → PyDict.set d k v = d ++ [(k, v)].
Proof.
  induction d as [|[k' v'] d IH]; simpl; [done|].
  intros [Hne Hd]%not_elem_of_cons.
  destruct (String.eqb k' k) eqn:Hk.
  - apply String.eqb_eq in Hk. by subst.
  - by rewrite IH.
Qed.

Lemma dict_set_keys d k v :
  (PyDict.set d k v).*1 = if decide (k ∈ d.*1) then d.*1 else d.*1 ++ [k].
Proof.
  induction d as [|[k' v'] d IH]; [done|]. cbn [PyDict.set].
  destruct (String.eqb k' k) eqn:Hk.
  - apply String.eqb_eq in Hk as ->. rewrite decide_True; [done|]. csimpl. by left.
  - apply String.eqb_neq in Hk. csimpl. rewrite IH.
    destruct (decide (k ∈ d.*1)) as [Hin|Hin].
    + rewrite decide_True; [done|by right].
    + rewrite decide_False; [done|]. rewrite not_elem_of_cons. by split.
Qed.

Lemma dict_set_NoDup d k v : NoDup d.*1 → NoDup (PyDict.set d k v).*1.
Proof.
  intros Hd. rewrite dict_set_keys. destruct (decide (k ∈ d.*1)); [done|].
  apply NoDup_app. split; [done|]. split; [|apply NoDup_singleton].
  intros x Hx ->%list_elem_of_singleton. done.
Qed.

Lemma dict_fold_NoDup kvs d :
  NoDup d.*1 → NoDup (fold_left (λ d kv, PyDict.set d kv.1 kv.2) kvs d).*1.
Proof.
  revert d. induction kvs as [|[k v] kvs IH]; intros d Hd; simpl; [done|].
  apply IH. by apply dict_set_NoDup.
Qed.

(** A dict built by a comprehension has each key once. *)
Lemma dict_of_items_NoDup kvs : NoDup (PyDict.of_items kvs).*1.
Proof. apply dict_fold_NoDup. constructor. Qed.

Lemma dict_fold_fresh kvs d :
  NoDup (d ++ kvs).*1 →
  fold_left (λ d kv, PyDict.set d kv.1 kv.2) kvs d = d ++ kvs.
Proof.
  revert d. induction kvs as [|[k v] kvs IH]; intros d Hd; simpl.
  - by rewrite app_nil_r.
  - rewrite fmap_app in Hd. simpl in Hd.
    rewrite dict_set_fresh.
    + rewrite IH; [by rewrite <- app_assoc|].
      by rewrite <- app_assoc, fmap_app.
    + apply NoDup_app in Hd as (_ & Hd & _). intros Hin. apply (Hd k Hin). by left.
Qed.

(** Pairs whose keys differ already are a dict as they stand. *)
Lemma dict_of_items_id kvs : NoDup kvs.*1 → PyDict.of_items kvs = kvs.
Proof. intros Hkvs. by apply (dict_fold_fresh kvs []). Qed.

Lemma dict_fold_get kvs d k :
  PyDict.get (fold_left (λ d kv, PyDict.set d kv.1 kv.2) kvs d) k
  = match PyDict.get (rev kvs) k with
    | Some v => Some v
    | None => PyDict.get d k
    end.
Proof.
  revert d. induction kvs as [|[k0 v0] kvs IH]; intros d; simpl; [done|].
  rewrite IH, dict_get_app, dict_get_set. simpl.
  by destruct (PyDict.get (rev kvs) k), (String.eqb k0 k).
Qed.

(** In a comprehension the last pair with a key decides its value. *)
Lemma dict_of_items_get kvs k :
  PyDict.get (PyDict.of_items kvs) k = PyDict.get (rev kvs) k.
Proof.
  unfold PyDict.of_items. rewrite dict_fold_get. by destruct (PyDict.get (rev kvs) k).
Qed.

End DictFacts.

Lemma strip_idempotent s : PyStr.strip (PyStr.strip s) = PyStr.strip s.
Proof. apply PyStrFacts.strip_id, PyStrFacts.strip_trimmed. Qed.

Lemma strip_recursive_stripped_items d :
  _strip_recursive (PDict d) = PDict (PyDict.of_items (stripped_items d)).
Proof. apply strip_recursive_dict_eq. Qed.

(** X3: stripping a second time changes nothing. *)
Theorem strip_recursive_idempotent (obj : pyobj) :
  _strip_recursive (_strip_recursive obj) = _strip_recursive obj.
Proof.
  induction obj as [ |b|n|x|s|l IH|d IH|t] using pyobj_nested_ind; try done.
  - simpl. f_equal. rewrite map_map. apply map_ext_in.
    intros o Ho. rewrite Forall_forall in IH. apply IH. by apply list_elem_of_In.
  - rewrite strip_recursive_stripped_items.
    set (d1 := PyDict.of_items (stripped_items d)).
    rewrite strip_recursive_stripped_items. f_equal.
    assert (Hfix : Forall (λ kv, (PyStr.strip kv.1, _strip_recursive (strip_if_str kv.2)) = kv) d1).
    { apply dict_of_items_Forall, Forall_forall.
      intros kv [[k v] [<- Hin]]%list_elem_of_In%in_map_iff. simpl.
      rewrite strip_idempotent. f_equal.
      rewrite Forall_forall in IH. apply list_elem_of_In in Hin.
      specialize (IH (k, v) Hin). simpl in IH.
      destruct v; simpl; try done.
      by rewrite strip_idempotent. }
    assert (Hmap : stripped_items d1 = d1).
    { unfold stripped_items. induction Hfix as [|kv d' Hkv Hd' IHd']; simpl; [done|].
      by rewrite Hkv, IHd'. }
    rewrite Hmap. apply dict_of_items_id, dict_of_items_NoDup.
Qed.

(** X4: in the stripped dict every key occurs once, and the value under a
    key is the one of the last entry of the decoded dict whose stripped key
    it is. *)
Theorem strip_recursive_last_entry_wins (d : list (string * pyobj)) (k : string) :
  ∃ d', _strip_recursive (PDict d) = PDict d' ∧
        NoDup d'.*1 ∧
        PyDict.get d' k = PyDict.get (rev (stripped_items d)) k.
Proof.
  exists (PyDict.of_items (stripped_items d)).
  split; [apply strip_recursive_stripped_items|].
  split; [apply dict_of_items_NoDup|apply dict_of_items_get].
Qed.

Module CleanMore.
Import PyStr PyStrFacts.

#[local] Arguments String.append !_ _ / : simpl nomatch.

Lemma has_char_app c x y : has_char c (x +:+ y) = has_char c x || has_char c y.
Proof. induction x as [|a x IH]; simpl; [done|]. by rewrite IH, orb_assoc. Qed.

Lemma replace_entity_id s :
  has_char ";" s = false → replace s "&quot;" dquote = s.
Proof.
  unfold replace. induction s as [|a s IH]; [done|].
  intros Hs. cbn [replace_from].
  destruct (startswith (String a s) "&quot;") eqn:Hstart.
  - apply startswith_drop in Hstart. rewrite Hstart, has_char_app in Hs.
    by apply orb_false_elim in Hs as [? _].
  - f_equal. apply IH. simpl in Hs. by apply orb_false_elim in Hs as [_ ?].
Qed.

Lemma replace_char_id c s :
  has_char c s = false → replace s (String c "") "" = s.
Proof.
  induction s as [|a s IH]; [done|]. intros Hs. simpl in Hs.
  apply orb_false_elim in Hs as [Ha Hs].
  rewrite replace_char_cons, Ha, IH; done.
Qed.

Lemma clean_id s : has_char ";" s = false → clean s = s.
Proof.
  intros Hs. unfold clean. rewrite replace_entity_id by done. by apply replace_char_id.
Qed.

End CleanMore.

(** X5: text without a semicolon passes the clean-up unchanged, and cleaning
    twice is cleaning once. *)
Theorem clean_fixes_clean_text (s : string) :
  (PyStr.has_char ";" s = false → clean s = s) ∧ clean (clean s) = clean s.
Proof.
  split; [apply CleanMore.clean_id|].
  apply CleanMore.clean_id, CleanFacts.clean_no_semicolon.
Qed.

Lemma clean_fixes_clean_text_witness :
  clean (Sample.payload (Sample.quoted "80.00")) = Sample.payload (Sample.quoted "80.00").
Proof.
  apply (proj1 (clean_fixes_clean_text (Sample.payload (Sample.quoted "80.00")))).
  reflexivity.
Defined.

(** ** More on the parser and the loop *)

Lemma omap_length_le {A B} (f : A → option B) (l : list A) :
  (length (omap f l) ≤ length l)%nat.
Proof.
  induction l as [|a l IH]; simpl; [lia|].
  change (list_omap A B f l) with (omap f l). destruct (f a); simpl; lia.
Qed.

(** X6: when the parser accepts the page and no row lets an exception
    through, the result lists the prices of the selling rows of the first
    listing table in document order, one per row that has one, so never
    more than there are rows. *)
Theorem parse_listings_lists_offers {L : Libraries}
  (text : string) (soup : list node) (table : node) :
  text ≠ "" →
  html_parser text = Some soup →
  Soup.find soup "table" "list_tb" = Some table →
  Forall (λ r, row_escape r = None) (Soup.find_all table "tr" "selling") →
  ∃ prices,
    parse_listings (Some text) = Ok prices ∧
    prices = omap row_offer (Soup.find_all table "tr" "selling") ∧
    (length prices ≤ length (Soup.find_all table "tr" "selling"))%nat.
Proof.
  intros Htext Hsoup Htable Hrows.
  eexists. split; [|split; [reflexivity|apply omap_length_le]].
  destruct text as [|c text]; [done|]. simpl. rewrite Hsoup.
  by apply handled_rows_are_isolated.
Qed.

Lemma parse_listings_lists_offers_witness :
  ∃ prices,
    parse_listings (L := Sample.libraries) (Some Sample.page_corrupt) = Ok prices ∧
    prices = [PyFloat.of_Z 80; PyFloat.of_Z 75] ∧
    (length prices ≤ 3)%nat.
Proof.
  assert (Htext : Sample.page_corrupt ≠ "") by discriminate.
  assert (Hrows : Forall (λ r, row_escape (L := Sample.libraries) r = None)
                    (Soup.find_all (Tag "table" ["list_tb"] [] (map Sample.row Sample.rows_corrupt))
                       "tr" "selling")) by (repeat constructor).
  exact (parse_listings_lists_offers (L := Sample.libraries) Sample.page_corrupt
           (Sample.page Sample.rows_corrupt)
           (Tag "table" ["list_tb"] [] (map Sample.row Sample.rows_corrupt))
           Htext eq_refl eq_refl Hrows).
Defined.

Section LoopMore.
Context {L : Libraries}.

Lemma le_number_nan t : le_number S754_nan t = false.
Proof. by destruct t. Qed.

Lemma record_sample_lookup prices now i st it lowest :
  items_data st !! i = Some it →
  py_min prices = Some lowest →
  items_data (record_sample prices now i st).1 !! i
  = Some {| display_name := display_name it; url := url it;
            alarm_price := alarm_price it;
            lowest_price := Some lowest; last_updated := Some now |}.
Proof.
  intros Hi Hmin. rewrite (record_sample_items _ _ _ _ _ _ Hi Hmin).
  apply list_lookup_insert_eq. by eapply lookup_lt_Some.
Qed.

(** After a sample with a price the name is in the set exactly when the
    price is within the threshold. *)
Lemma record_sample_decides prices now i st it lowest :
  items_data st !! i = Some it →
  py_min prices = Some lowest →
  display_name it ∈ active_alarms (record_sample prices now i st).1
  ↔ le_number lowest (alarm_price it) = true.
Proof.
  intros Hi Hmin.
  destruct (record_sample_alarm prices now i st it lowest Hi Hmin) as [Hle Hgt].
  destruct (le_number lowest (alarm_price it)).
  - destruct (Hle eq_refl) as [-> _]. split; [done|]. intros _. set_solver.
  - destruct (Hgt eq_refl) as [-> _]. split; [set_solver|done].
Qed.

Lemma record_sample_length prices now i st :
  length (items_data (record_sample prices now i st).1) = length (items_data st).
Proof.
  rewrite <- (length_fmap tracked_part), record_sample_tracked. apply length_fmap.
Qed.

End LoopMore.

(** X7: when the first price of a sample is a NaN, the recorded lowest price
    is that NaN, the name of the item is not in the alarm set afterwards
    and no sound is played, whatever the other prices are. *)
Theorem nan_first_price_silences_alarm {L : Libraries}
  (html : option string) (now : time) (i : nat) (st : monitor) (it : item)
  (rest : list float) :
  items_data st !! i = Some it →
  parse_listings html = Ok (S754_nan :: rest) →
  ∃ st' evs it',
    poll_item html now i st = Ok (st', evs) ∧
    items_data st' !! i = Some it' ∧
    lowest_price it' = Some S754_nan ∧
    (display_name it ∉ active_alarms st') ∧
    alarms_played evs = 0%nat.
Proof.
  intros Hi Hp.
  assert (Hmin : py_min (S754_nan :: rest) = Some S754_nan)
    by (simpl; f_equal; apply fold_min_nan).
  eexists _, _, _. split; [by apply poll_item_ok|].
  split; [by apply record_sample_lookup|]. split; [done|].
  destruct (record_sample_alarm _ now _ _ _ _ Hi Hmin) as [_ Hgt].
  destruct (Hgt (le_number_nan _)) as [Hset Hplayed].
  rewrite Hset, Hplayed. split; [set_solver|done].
Qed.

Lemma nan_first_price_silences_alarm_witness :
  ∃ st' evs it',
    poll_item (L := Sample2.libraries_nan) (Some Sample2.page_nan_first) 2%Z 0
      {| items_data := [Item "AK-47" "u1" (NInt 100) (Some (PyFloat.of_Z 95)) (Some 1%Z)];
         active_alarms := {["AK-47"]} |} = Ok (st', evs) ∧
    items_data st' !! 0 = Some it' ∧
    lowest_price it' = Some S754_nan ∧
    ("AK-47" ∉ active_alarms st') ∧
    alarms_played evs = 0%nat.
Proof.
  exact (nan_first_price_silences_alarm (L := Sample2.libraries_nan)
           (Some Sample2.page_nan_first) 2%Z 0
           {| items_data := [Item "AK-47" "u1" (NInt 100) (Some (PyFloat.of_Z 95)) (Some 1%Z)];
              active_alarms := {["AK-47"]} |}
           (Item "AK-47" "u1" (NInt 100) (Some (PyFloat.of_Z 95)) (Some 1%Z))
           [PyFloat.of_Z 95] eq_refl eq_refl).
Defined.

(** X8: feeding the same sample again never plays the sound again and leaves
    the alarm set and every recorded price as they are; only the time of
    the item moves on. *)
Theorem repeated_sample_is_silent
  (prices : list float) (now now' : time) (i : nat) (st : monitor) :
  let st1 := (record_sample prices now i st).1 in
  let st2 := (record_sample prices now' i st1).1 in
  (record_sample prices now' i st1).2 = false ∧
  active_alarms st2 = active_alarms st1 ∧
  map lowest_price (items_data st2) = map lowest_price (items_data st1) ∧
  map tracked_part (items_data st2) = map tracked_part (items_data st1).
Proof.
  intros st1 st2.
  assert (Htracked : map tracked_part (items_data st2) = map tracked_part (items_data st1))
    by apply record_sample_tracked.
  destruct (items_data st !! i) as [it|] eqn:Hi.
  2:{ subst st2 st1. rewrite (record_sample_absent prices now) by auto. simpl.
      by rewrite (record_sample_absent prices now') by auto. }
  destruct (py_min prices) as [lowest|] eqn:Hmin.
  2:{ subst st2 st1. rewrite (record_sample_absent prices now) by auto. simpl.
      by rewrite (record_sample_absent prices now') by auto. }
  pose proof (record_sample_lookup _ now _ _ _ _ Hi Hmin) as Hi1. fold st1 in Hi1.
  pose proof (record_sample_decides _ now _ _ _ _ Hi Hmin) as Hdec. fold st1 in Hdec.
  destruct (record_sample_alarm prices now' i st1 _ lowest Hi1 Hmin) as [Hle Hgt].
  simpl in Hle, Hgt. fold st2 in Hle, Hgt.
  assert (Hprices : map lowest_price (items_data st2) = map lowest_price (items_data st1)).
  { subst st2. rewrite (record_sample_items prices now' i st1 _ lowest Hi1 Hmin).
    change (map lowest_price) with (fmap (M := list) lowest_price).
    rewrite list_fmap_insert. apply list_insert_id. by rewrite list_lookup_fmap, Hi1. }
  destruct (le_number lowest (alarm_price it)) eqn:Hcmp.
  - destruct (Hle eq_refl) as [Hset Hplayed]. rewrite Hset, Hplayed.
    assert (display_name it ∈ active_alarms st1) by by apply Hdec.
    rewrite bool_decide_true by done. split; [done|]. split; [set_solver|done].
  - destruct (Hgt eq_refl) as [Hset Hplayed]. rewrite Hset, Hplayed.
    assert (display_name it ∉ active_alarms st1) by (rewrite Hdec; congruence).
    split; [done|]. split; [set_solver|done].
Qed.

(** ** More invariants of the loop *)

Section ReachableMore.
Context {L : Libraries}.

Lemma record_sample_stamped prices now i st :
  Forall stamped (items_data st) →
  Forall stamped (items_data (record_sample prices now i st).1).
Proof.
  intros Hall.
  destruct (items_data st !! i) as [it|] eqn:Hi;
    [|by rewrite record_sample_absent by auto].
  destruct (py_min prices) as [lowest|] eqn:Hmin;
    [|by rewrite record_sample_absent by auto].
  rewrite (record_sample_items prices now i st it lowest Hi Hmin).
  apply Forall_insert; [done|]. by split.
Qed.

Lemma record_sample_backed prices now i st :
  alarms_backed st → alarms_backed (record_sample prices now i st).1.
Proof.
  intros Hinv.
  destruct (items_data st !! i) as [it|] eqn:Hi;
    [|by rewrite record_sample_absent by auto].
  destruct (py_min prices) as [lowest|] eqn:Hmin;
    [|by rewrite record_sample_absent by auto].
  pose proof (record_sample_lookup prices now i st it lowest Hi Hmin) as Hnew.
  pose proof (record_sample_items prices now i st it lowest Hi Hmin) as Hitems.
  pose proof (record_sample_decides prices now i st it lowest Hi Hmin) as Hdec.
  destruct (record_sample_alarm prices now i st it lowest Hi Hmin) as [Hle Hgt].
  simpl in Hle, Hgt. intros name Hname.
  destruct (decide (name = display_name it)) as [->|Hne].
  - eexists _, lowest. split; [by eapply list_elem_of_lookup_2|].
    split; [done|]. split; [done|]. by apply Hdec.
  - assert (Hold : name ∈ active_alarms st).
    { destruct (le_number lowest (alarm_price it)).
      - destruct (Hle eq_refl) as [Hset _]. rewrite Hset in Hname. set_solver.
      - destruct (Hgt eq_refl) as [Hset _]. rewrite Hset in Hname. set_solver. }
    destruct (Hinv name Hold) as (it0 & p & Hin0 & Hname0 & Hp & Hcmp).
    exists it0, p. split; [|done].
    apply list_elem_of_lookup in Hin0 as [j Hj]. rewrite Hitems.
    apply list_elem_of_lookup. exists j.
    rewrite list_lookup_insert_ne; [done|]. intros <-. congruence.
Qed.

Lemma size_names_le (names : list string) :
  (size (list_to_set names : gset string) ≤ length names)%nat.
Proof.
  induction names as [|n names IH].
  - rewrite list_to_set_nil, size_empty. simpl. lia.
  - rewrite list_to_set_cons, size_union_alt, size_singleton. simpl.
    assert (Hsub : list_to_set names ∖ {[n]} ⊆ (list_to_set names : gset string))
      by set_solver.
    apply subseteq_size in Hsub. lia.
Qed.

Lemma reachable_more config st :
  reachable config st →
  tracked_part <$> items_data st = config ∧
  Forall stamped (items_data st) ∧
  alarms_backed st.
Proof.
  induction 1 as [|st html now i st' evs Hreach (Htr & Hst & Hback) Hi Hpoll].
  - split; [apply initial_tracked|]. split.
    + unfold initial. simpl. apply Forall_forall. intros it Hit.
      change (it ∈ (λ c, new_item c.1.1 c.1.2 c.2) <$> config) in Hit.
      apply list_elem_of_fmap in Hit as (c & -> & _). by split.
    + intros name Hname. unfold initial in Hname. simpl in Hname. set_solver.
  - apply poll_item_inv in Hpoll as (prices & _ & -> & _).
    split; [by rewrite record_sample_tracked|].
    split; [by apply record_sample_stamped|by apply record_sample_backed].
Qed.

End ReachableMore.

(** X9: whatever the names are (shared names included), every name in the
    alarm set of a state the loop can reach is the name of an item whose
    recorded price is within its threshold; so the set never holds more
    names than there are items, and the footer is never sized for more. *)
Theorem alarms_are_backed_by_an_item {L : Libraries}
  (config : list (string * string * number)) (st : monitor) :
  reachable config st →
  alarms_backed st ∧
  (size (active_alarms st) ≤ length config)%nat ∧
  (footer_size (generate_layout (items_data st) (active_alarms st)) ≤ length config + 4)%nat.
Proof.
  intros Hreach. destruct (reachable_more config st Hreach) as (Htr & _ & Hback).
  assert (Hsize : (size (active_alarms st) ≤ length config)%nat).
  { rewrite <- Htr, length_fmap, <- (length_fmap display_name).
    etrans; [|apply size_names_le]. apply subseteq_size.
    intros name Hname. destruct (Hback name Hname) as (it & p & Hin & <- & _).
    apply elem_of_list_to_set, list_elem_of_fmap. by exists it. }
  split; [done|]. split; [done|]. simpl. lia.
Qed.

Lemma alarms_are_backed_by_an_item_witness :
  ∃ st evs,
    run (L := Sample.libraries)
        (Sample.serving [Some Sample.page_95; Some Sample.page_95]) 1 0
        (initial [("AK-47", "u1", NInt 100); ("AK-47", "u2", NInt 200)])
    = Ok (st, evs) ∧
    alarms_backed st ∧
    (size (active_alarms st) ≤ 2)%nat.
Proof.
  destruct (run (L := Sample.libraries)
              (Sample.serving [Some Sample.page_95; Some Sample.page_95]) 1 0
              (initial [("AK-47", "u1", NInt 100); ("AK-47", "u2", NInt 200)]))
    as [[st evs]|e] eqn:Hrun.
  - exists st, evs. split; [reflexivity|].
    assert (Hreach : reachable (L := Sample.libraries)
                       [("AK-47", "u1", NInt 100); ("AK-47", "u2", NInt 200)] st)
      by (eapply run_reachable; [apply reachable_initial|exact Hrun]).
    destruct (alarms_are_backed_by_an_item (L := Sample.libraries) _ st Hreach)
      as (Hback & Hsize & _).
    split; [exact Hback|exact Hsize].
  - vm_compute in Hrun. discriminate Hrun.
Defined.

(** X10: whatever the names are, the loop never changes the names, URLs and
    thresholds of the items nor their order, and an item has a recorded
    price exactly when it has a recorded time: the table shows N/A in both
    columns of a row or in none. *)
Theorem items_keep_configuration {L : Libraries}
  (config : list (string * string * number)) (st : monitor) :
  reachable config st →
  map tracked_part (items_data st) = config ∧
  Forall (λ row, row.1.2 = None ↔ row.2 = None)
         (table_rows (generate_layout (items_data st) (active_alarms st))).
Proof.
  intros Hreach. destruct (reachable_more config st Hreach) as (Htr & Hst & _).
  split; [done|]. simpl. apply Forall_forall. intros row Hrow.
  change (row ∈ (λ it, (display_name it, lowest_price it, last_updated it)) <$> items_data st)
    in Hrow.
  apply list_elem_of_fmap in Hrow as (it & -> & Hit). simpl.
  by apply (proj1 (Forall_forall _ _) Hst).
Qed.

Lemma items_keep_configuration_witness :
  ∃ st evs,
    run (L := Sample.libraries)
        (Sample.serving [Some Sample.page_95; None]) 1 0
        (initial [("AK-47", "u1", NInt 100); ("AK-47", "u2", NInt 200)])
    = Ok (st, evs) ∧
    map tracked_part (items_data st)
    = [("AK-47", "u1", NInt 100); ("AK-47", "u2", NInt 200)].
Proof.
  destruct (run (L := Sample.libraries)
              (Sample.serving [Some Sample.page_95; None]) 1 0
              (initial [("AK-47", "u1", NInt 100); ("AK-47", "u2", NInt 200)]))
    as [[st evs]|e] eqn:Hrun.
  - exists st, evs. split; [reflexivity|].
    assert (Hreach : reachable (L := Sample.libraries)
                       [("AK-47", "u1", NInt 100); ("AK-47", "u2", NInt 200)] st)
      by (eapply run_reachable; [apply reachable_initial|exact Hrun]).
    exact (proj1 (items_keep_configuration (L := Sample.libraries) _ st Hreach)).
  - vm_compute in Hrun. discriminate Hrun.
Defined.

(** ** What a run does to the outside *)

Section RunFacts.
Context {L : Libraries}.

Lemma played_app evs1 evs2 :
  alarms_played (evs1 ++ evs2) = (alarms_played evs1 + alarms_played evs2)%nat.
Proof. unfold alarms_played. by rewrite List.filter_app, length_app. Qed.

Lemma live_updates_app evs1 evs2 :
  live_updates (evs1 ++ evs2) = (live_updates evs1 + live_updates evs2)%nat.
Proof. unfold live_updates. by rewrite List.filter_app, length_app. Qed.

Lemma sleeps_app evs1 evs2 :
  sleeps (evs1 ++ evs2) = (sleeps evs1 + sleeps evs2)%nat.
Proof. unfold sleeps. by rewrite List.filter_app, length_app. Qed.

(** One pass of the body refreshes the display once, as its last action,
    and plays the sound at most once, before that. *)
Lemma poll_item_events html now i st st' evs :
  poll_item html now i st = Ok (st', evs) →
  length (items_data st') = length (items_data st) ∧
  live_updates evs = 1%nat ∧ sleeps evs = 0%nat ∧ (alarms_played evs ≤ 1)%nat.
Proof.
  destruct (parse_listings html) as [prices|e] eqn:Hp.
  - rewrite (poll_item_ok _ _ _ _ _ Hp). intros [= <- <-].
    split; [apply record_sample_length|].
    unfold live_updates, sleeps, alarms_played.
    destruct (record_sample prices now i st).2; simpl; lia.
  - unfold poll_item. rewrite Hp. by unfold_result.
Qed.

Lemma for_items_events w n i tick st st' evs :
  for_items w n i tick st = Ok (st', evs) →
  length (items_data st') = length (items_data st) ∧
  live_updates evs = (n `min` (length (items_data st) - i))%nat ∧
  sleeps evs = 0%nat ∧
  (alarms_played evs ≤ live_updates evs)%nat.
Proof.
  revert i tick st evs. induction n as [|n IH]; intros i tick st evs; cbn [for_items].
  - intros [= <- <-]. done.
  - destruct (items_data st !! i) as [it|] eqn:Hi.
    2:{ intros [= <- <-]. apply lookup_ge_None in Hi.
        split; [done|]. split; [|done]. change (live_updates []) with 0%nat. lia. }
    apply lookup_lt_Some in Hi. unfold mbind, mret, result_bind, result_ret.
    destruct (poll_item _ _ i st) as [[st1 ev1]|] eqn:Hpoll; [|done].
    destruct (for_items w n (S i) (S tick) st1) as [[st2 ev2]|] eqn:Hrest; [|done].
    intros [= <- <-].
    apply poll_item_events in Hpoll as (Hlen1 & Hlive1 & Hsleep1 & Hplay1).
    apply IH in Hrest as (Hlen2 & Hlive2 & Hsleep2 & Hplay2).
    rewrite live_updates_app, sleeps_app, played_app.
    split; [congruence|]. rewrite Hlive1, Hlive2, Hsleep1, Hsleep2, Hlen1.
    split; [lia|]. split; [done|]. rewrite Hlive2, Hlen1 in Hplay2. lia.
Qed.

End RunFacts.

(** X11: a run of [cycles] rounds that comes to its end refreshes the display
    once per item and round, sleeps once per round and for 10 seconds each
    time, plays the sound at most once per refresh, and keeps the number of
    items. *)
Theorem run_refreshes_once_per_item {L : Libraries}
  (w : world) (cycles tick : nat) (st st' : monitor) (evs : list event) :
  run w cycles tick st = Ok (st', evs) →
  length (items_data st') = length (items_data st) ∧
  live_updates evs = (cycles * length (items_data st))%nat ∧
  sleeps evs = cycles ∧
  (alarms_played evs ≤ cycles * length (items_data st))%nat ∧
  Forall (λ e, is_time_sleep e = true → e = time_sleep 10) evs.
Proof.
  revert tick st evs. induction cycles as [|c IH]; intros tick st evs; simpl.
  - intros [= <- <-]. repeat split; constructor.
  - unfold_result.
    destruct (for_items w _ 0 tick st) as [[st1 ev1]|] eqn:Hsweep; [|done].
    destruct (run w c _ st1) as [[st2 ev2]|] eqn:Hrest; [|done].
    intros [= <- <-].
    pose proof (for_items_events _ _ _ _ _ _ _ Hsweep) as (Hlen1 & Hlive1 & Hsleep1 & Hplay1).
    apply IH in Hrest as (Hlen2 & Hlive2 & Hsleep2 & Hplay2 & Hten2).
    change (ev1 ++ time_sleep 10 :: ev2) with (ev1 ++ [time_sleep 10] ++ ev2).
    rewrite !live_updates_app, !sleeps_app, !played_app.
    rewrite Hlive1, Hlive2, Hsleep1, Hsleep2, Hlen1 in *.
    split; [congruence|].
    change (live_updates [time_sleep 10]) with 0%nat.
    change (sleeps [time_sleep 10]) with 1%nat.
    change (alarms_played [time_sleep 10]) with 0%nat.
    split; [lia|]. split; [done|]. split; [lia|].
    apply Forall_app. split.
    + apply Forall_forall. intros e He Hsleep.
      assert (Hpos : (0 < sleeps ev1)%nat).
      { clear -He Hsleep. unfold sleeps. induction ev1 as [|e1 ev1 IH]; [by inversion He|].
        apply elem_of_cons in He as [<-|He]; simpl.
        - rewrite Hsleep. simpl. lia.
        - specialize (IH He). destruct (is_time_sleep e1); simpl; lia. }
      lia.
    + constructor; [done|]. exact Hten2.
Qed.

Lemma run_refreshes_once_per_item_witness :
  ∃ st' evs,
    run (L := Sample.libraries)
        (Sample.serving [Some Sample.page_150; Some Sample.page_95; None; Some Sample.page_120])
        4 0 (initial Sample.config) = Ok (st', evs) ∧
    live_updates evs = 4%nat ∧ sleeps evs = 4%nat ∧ (alarms_played evs ≤ 4)%nat.
Proof.
  destruct (run (L := Sample.libraries)
              (Sample.serving [Some Sample.page_150; Some Sample.page_95; None; Some Sample.page_120])
              4 0 (initial Sample.config)) as [[st' evs]|e] eqn:Hrun.
  - exists st', evs. split; [reflexivity|].
    destruct (run_refreshes_once_per_item (L := Sample.libraries) _ _ _ _ _ _ Hrun)
      as (_ & Hlive & Hsleep & Hplay & _).
    split; [exact Hlive|]. split; [exact Hsleep|exact Hplay].
  - vm_compute in Hrun. discriminate Hrun.
Defined.

(** ** The exceptions of the price lookup *)

Section LookupFacts.
Context {L : Libraries}.

(** The body of the [try] is the decoding and stripping of the payload
    followed by the lookup. *)
Lemma row_price_lookup s data :
  json_loads (clean s) = Some data →
  row_price s = sell_min_price_of (_strip_recursive data).
Proof. unfold row_price, sell_min_price_of. unfold_result. by intros ->. Qed.

(** A key that is in a container is never missing from it. *)
Lemma py_getitem_present obj key :
  py_contains obj key = Ok true → py_getitem obj key ≠ Raise KeyError.
Proof.
  destruct obj; simpl; try done. unfold PyDict.has.
  by destruct (PyDict.get d key).
Qed.

End LookupFacts.

(** X12: in the membership test, subscript and conversion of one row the
    subscript follows a successful membership test, so it never raises
    [KeyError]; and of the exceptions that these three operations raise,
    the handler lets through only the [OverflowError] of [float()] on an
    integer too large for a float, found under the key of a dict. *)
Theorem only_overflow_passes_the_handler {L : Libraries}
  (stripped_data : pyobj) (e : exn) :
  sell_min_price_of stripped_data = Raise e →
  e ≠ KeyError ∧
  (handled e = false →
   e = OverflowError ∧
   ∃ d n, stripped_data = PDict d ∧
          PyDict.get d "sell_min_price" = Some (PInt n) ∧
          PyFloat.is_finite (PyFloat.of_Z n) = false).
Proof.
  unfold sell_min_price_of. unfold_result.
  destruct (py_contains stripped_data "sell_min_price") as [[|]|e'] eqn:Hc; try done.
  - pose proof (py_getitem_present _ _ Hc) as Hkey.
    destruct (py_getitem stripped_data "sell_min_price") as [v|e'] eqn:Hg.
    + destruct (py_float v) as [x|e'] eqn:Hv; [done|]. intros [= ->].
      destruct stripped_data; simpl in Hg; try done.
      destruct (PyDict.get d "sell_min_price") as [v'|] eqn:Hd; [|done].
      injection Hg as ->.
      destruct v; simpl in Hv; try (by injection Hv as <-); try done.
      * destruct (PyFloat.is_finite (PyFloat.of_Z n)) eqn:Hfin; [done|].
        injection Hv as <-. split; [done|]. intros _. split; [done|]. by exists d, n.
      * destruct (float_of_str s); [done|]. by injection Hv as <-.
    + intros [= ->]. split; [congruence|]. intros He.
      destruct stripped_data; simpl in Hg; try (by injection Hg as <-).
      destruct (PyDict.get d "sell_min_price"); [done|]. by injection Hg as <-.
  - intros [= ->].
    destruct stripped_data; simpl in Hc; try done; by injection Hc as <-.
Qed.

Lemma only_overflow_passes_the_handler_witness :
  OverflowError ≠ KeyError ∧
  (handled OverflowError = false →
   OverflowError = OverflowError ∧
   ∃ d n, Sample.price (PInt (10 ^ 400)) = PDict d ∧
          PyDict.get d "sell_min_price" = Some (PInt n) ∧
          PyFloat.is_finite (PyFloat.of_Z n) = false).
Proof.
  exact (only_overflow_passes_the_handler (L := Sample.libraries)
           (Sample.price (PInt (10 ^ 400))) OverflowError eq_refl).
Defined.

(** ** More on the alarm footer *)

Section FooterFacts.

Lemma alarm_line_names (items : list item) (n : string) :
  (alarm_line items n).*1 = [] ∨ (alarm_line items n).*1 = [n].
Proof.
  unfold alarm_line. destruct (List.find _ items) as [it|]; [|by left].
  destruct (lowest_price it) as [p|]; [|by left].
  destruct (PyFloat.truthy p); [by right|by left].
Qed.

Lemma alarm_lines_sublist (items : list item) (names : list string) :
  (flat_map (alarm_line items) names).*1 `sublist_of` names.
Proof.
  induction names as [|n names IH]; simpl; [done|].
  rewrite fmap_app. destruct (alarm_line_names items n) as [-> | ->]; simpl.
  - by apply sublist_cons.
  - by apply sublist_skip.
Qed.

Lemma sublist_StronglySorted {A} (R : relation A) (l1 l2 : list A) :
  l1 `sublist_of` l2 → StronglySorted R l2 → StronglySorted R l1.
Proof.
  induction 1 as [|x l1 l2 Hsub IH|x l1 l2 Hsub IH]; intros Hsorted; [done| |].
  - apply StronglySorted_cons in Hsorted as [Hall Hsorted].
    apply StronglySorted_cons. split; [|by apply IH].
    apply Forall_forall. intros y Hy.
    apply (proj1 (Forall_forall _ _) Hall). by eapply elem_of_sublist.
  - apply StronglySorted_cons in Hsorted as [_ Hsorted]. by apply IH.
Qed.

End FooterFacts.

(** X13: the lines of the footer follow the sorted order of the names in the
    alarm set: their names are a sub-sequence of the sorted names, so they
    are in ascending order, no name has two lines, and there are never
    more lines than names in the set. *)
Theorem footer_lines_follow_sorted_names (items : list item) (alarms : gset string) :
  let names := (alarm_lines (generate_layout items alarms)).*1 in
  names `sublist_of` merge_sort String.le (elements alarms) ∧
  StronglySorted String.le names ∧
  NoDup names ∧
  (length names ≤ size alarms)%nat.
Proof.
  simpl.
  assert (Hsorted : StronglySorted String.le (merge_sort String.le (elements alarms))).
  { apply StronglySorted_merge_sort; apply _. }
  assert (Hnodup : NoDup (merge_sort String.le (elements alarms))).
  { rewrite merge_sort_Permutation. apply NoDup_elements. }
  assert (Hlen : length (merge_sort String.le (elements alarms)) = size alarms).
  { by rewrite merge_sort_Permutation. }
  assert (Hsub : (if decide (alarms = ∅) then []
                  else flat_map (alarm_line items) (merge_sort String.le (elements alarms))).*1
                 `sublist_of` merge_sort String.le (elements alarms)).
  { destruct (decide (alarms = ∅)); [apply sublist_nil_l|apply alarm_lines_sublist]. }
  split; [done|]. split; [by eapply sublist_StronglySorted|].
  split; [by eapply sublist_NoDup|].
  rewrite <- Hlen. by apply sublist_length.
Qed.

(** X14: with items of pairwise distinct names, in every state the loop
    reaches each line of the footer shows the recorded price of the item
    of that name, and that price is within the item's threshold; an item
    whose name is in the alarm set has a line unless its recorded price is
    a zero. *)
Theorem footer_shows_prices_within_threshold {L : Libraries}
  (config : list (string * string * number)) (st : monitor) :
  NoDup (map (λ c, c.1.1) config) →
  reachable config st →
  let lines := alarm_lines (generate_layout (items_data st) (active_alarms st)) in
  (∀ name p, (name, p) ∈ lines →
     ∃ it, it ∈ items_data st ∧ display_name it = name ∧
           lowest_price it = Some p ∧
           le_number p (alarm_price it) = true ∧ PyFloat.is_zero p = false) ∧
  (∀ it, it ∈ items_data st → display_name it ∈ active_alarms st →
     ∃ p, lowest_price it = Some p ∧
          if PyFloat.is_zero p then ∀ q, (display_name it, q) ∉ lines
          else (display_name it, p) ∈ lines).
Proof.
  intros Hnd Hreach lines.
  destruct (reachable_invariant config st Hnd Hreach) as [Htr Hinv].
  assert (Hnames : NoDup (display_name <$> items_data st)) by by rewrite tracked_names, Htr.
  assert (Hfind : ∀ it, it ∈ items_data st →
            List.find (λ it', String.eqb (display_name it') (display_name it)) (items_data st)
            = Some it).
  { clear -Hnames. induction (items_data st) as [|a l IH]; intros it Hit; [by inversion Hit|].
    apply NoDup_cons in Hnames as [Ha Hl]. simpl.
    destruct (String.eqb_spec (display_name a) (display_name it)) as [Heq|Hne].
    - apply elem_of_cons in Hit as [->|Hit]; [done|].
      exfalso. apply Ha. rewrite Heq. apply list_elem_of_fmap. by exists it.
    - apply elem_of_cons in Hit as [->|Hit]; [done|]. by apply IH. }
  split.
  - intros name p [Hname Hline]%alarm_lines_elem.
    apply alarm_line_elem in Hline as (_ & it & Hit & Hp & Htrue).
    pose proof Hit as Hin. apply find_some in Hin as [Hin Heq].
    apply list_elem_of_In in Hin. apply String.eqb_eq in Heq. subst name.
    exists it. split; [done|]. split; [done|]. split; [done|].
    apply (Hinv it Hin) in Hname as (q & Hq & Hcmp).
    rewrite Hp in Hq. injection Hq as <-. split; [done|].
    unfold PyFloat.is_zero. by rewrite Htrue.
  - intros it Hin Hname. pose proof Hname as Hname'.
    apply (Hinv it Hin) in Hname' as (p & Hp & Hcmp). exists p. split; [done|].
    destruct (PyFloat.is_zero p) eqn:Hzero.
    + intros q [_ Hline]%alarm_lines_elem.
      apply alarm_line_elem in Hline as (_ & it' & Hit' & Hq & Htrue).
      rewrite (Hfind it Hin) in Hit'. injection Hit' as <-.
      rewrite Hp in Hq. injection Hq as <-.
      unfold PyFloat.is_zero in Hzero. by rewrite Htrue in Hzero.
    + apply alarm_lines_elem. split; [done|]. apply alarm_line_elem. split; [done|].
      exists it. split; [by apply Hfind|]. split; [done|].
      unfold PyFloat.is_zero in Hzero. by destruct (PyFloat.truthy p).
Qed.

Lemma footer_shows_prices_within_threshold_witness :
  ∃ st evs,
    run (L := Sample.libraries)
        (Sample.serving [Some Sample.page_150; Some Sample.page_95]) 2 0
        (initial Sample.config) = Ok (st, evs) ∧
    ∀ name p,
      (name, p) ∈ alarm_lines (generate_layout (items_data st) (active_alarms st)) →
      ∃ it, it ∈ items_data st ∧ display_name it = name ∧
            lowest_price it = Some p ∧
            le_number p (alarm_price it) = true ∧ PyFloat.is_zero p = false.
Proof.
  assert (Hnd : NoDup (map (λ c : string * string * number, c.1.1) Sample.config)).
  { constructor; [|constructor]. intros Hin. inversion Hin. }
  destruct (run (L := Sample.libraries)
              (Sample.serving [Some Sample.page_150; Some Sample.page_95]) 2 0
              (initial Sample.config)) as [[st evs]|e] eqn:Hrun.
  - exists st, evs. split; [reflexivity|].
    assert (Hreach : reachable (L := Sample.libraries) Sample.config st)
      by (eapply run_reachable; [apply reachable_initial|exact Hrun]).
    exact (proj1 (footer_shows_prices_within_threshold (L := Sample.libraries)
                    Sample.config st Hnd Hreach)).
  - vm_compute in Hrun. discriminate Hrun.
Defined.

(** ** The items the polling starts with *)

Section EntryFacts.

Lemma raw_item_of_entry e r : raw_item_of e = Ok r ↔ entry_of e r.
Proof.
  unfold raw_item_of, entry_of. unfold_result. split.
  - destruct e; simpl; try done.
    destruct (PyDict.get d "display_name") as [n|] eqn:Hn; [|done].
    destruct (PyDict.get d "url") as [u|] eqn:Hu; [|done].
    destruct (PyDict.get d "alarm_price") as [a|] eqn:Ha; [|done].
    intros [= <-]. by exists d.
  - intros (d & -> & Hn & Hu & Ha). simpl. rewrite Hn, Hu, Ha. by destruct r.
Qed.

Lemma result_mapM_entries entries its :
  result_mapM raw_item_of entries = Ok its ↔ Forall2 entry_of entries its.
Proof.
  revert its. induction entries as [|e entries IH]; intros its; simpl.
  - split; [intros [= <-]; constructor|]. by intros ->%Forall2_nil_inv_l.
  - unfold_result. split.
    + destruct (raw_item_of e) as [r|] eqn:Hr; [|done].
      destruct (result_mapM raw_item_of entries) as [rs|] eqn:Hrs; [|done].
      intros [= <-]. constructor; [by apply raw_item_of_entry|by apply IH].
    + intros (r & rs & Hr & Hrs & ->)%Forall2_cons_inv_l.
      apply raw_item_of_entry in Hr. apply IH in Hrs. by rewrite Hr, Hrs.
Qed.

End EntryFacts.

(** X15: start-up accepts a configuration exactly when what [items] holds
    (an empty list when the key is absent) can be iterated and each of its
    elements is a table with the three keys; the items then mirror the
    elements one for one, in their order, with the values as they are. *)
Theorem items_mirror_the_entries (config : list (string * pyobj)) (its : list raw_item) :
  build_items_data config = Ok its ↔
  ∃ entries,
    py_iter (default (PList []) (PyDict.get config "items")) = Ok entries ∧
    Forall2 entry_of entries its.
Proof.
  unfold build_items_data. unfold_result. split.
  - destruct (py_iter _) as [entries|]; [|done]. intros Hm.
    exists entries. split; [done|]. by apply result_mapM_entries.
  - intros (entries & -> & Hall). by apply result_mapM_entries.
Qed.
